(** * patroni/dcs/etcd3.py: the etcd v3 gateway driver, embedded in Rocq

    The development follows the layout of the Python module: Python values
    and exceptions, the gRPC error taxonomy with its two lookup tables, the
    status decoder, the low-level client ([Etcd3Client]) and the driver
    ([Etcd3]).  Effects (the RPC gateway, the wall clock, the mutable fields
    of the driver) are threaded through an explicit state-and-error monad
    whose state records the trace of external calls. *)

From stdpp Require Import base gmap strings list.
From Stdlib Require Import ZArith Ascii String Lia.
From Stdlib.Strings Require Import Byte.

Set Warnings "-register-all".

Local Open Scope string_scope.
Local Open Scope list_scope.
Local Open Scope Z_scope.

(** ** Python values

    The values that travel through the driver: what [json.loads] returns
    and what is handed to [json.dumps].  A text string is kept as the
    sequence of its UTF-8 bytes, so [str.encode('utf-8')] is the identity
    on the representation.  Dictionaries keep insertion order. *)

Inductive pyval : Type :=
| PNone
| PBool (b : bool)
| PInt (z : Z)
| PStr (s : string)
| PList (l : list pyval)
| PDict (d : list (string * pyval)).

(** Truth value testing (`if x:`, `not x`, `x or y`). *)
Definition truthy (v : pyval) : bool :=
  match v with
  | PNone => false
  | PBool b => b
  | PInt z => negb (z =? 0)
  | PStr s => negb (String.eqb s "")
  | PList l => match l with [] => false | _ => true end
  | PDict d => match d with [] => false | _ => true end
  end.

(** `x is None` *)
Definition is_None (v : pyval) : bool :=
  match v with PNone => true | _ => false end.

(** Lookup of a string key in an insertion-ordered dictionary. *)
Fixpoint dict_lookup (d : list (string * pyval)) (k : string) : option pyval :=
  match d with
  | [] => None
  | (k', v) :: d' => if String.eqb k' k then Some v else dict_lookup d' k
  end.

(** `d[k] = v`: replaces in place when the key is present, appends
    otherwise. *)
Fixpoint dict_set (d : list (string * pyval)) (k : string) (v : pyval)
  : list (string * pyval) :=
  match d with
  | [] => [(k, v)]
  | (k', v') :: d' =>
      if String.eqb k' k then (k', v) :: d' else (k', v') :: dict_set d' k v
  end.

(** ** gRPC status codes (google.golang.org/grpc/codes) *)

Module GRPCCode.
Definition OK : Z := 0.
Definition Canceled : Z := 1.
Definition Unknown : Z := 2.
Definition InvalidArgument : Z := 3.
Definition DeadlineExceeded : Z := 4.
Definition NotFound : Z := 5.
Definition AlreadyExists : Z := 6.
Definition PermissionDenied : Z := 7.
Definition ResourceExhausted : Z := 8.
Definition FailedPrecondition : Z := 9.
Definition Aborted : Z := 10.
Definition OutOfRange : Z := 11.
Definition Unimplemented : Z := 12.
Definition Internal : Z := 13.
Definition Unavailable : Z := 14.
Definition DataLoss : Z := 15.
Definition Unauthenticated : Z := 16.

(** The attributes of the enumeration, as `GRPCCode.__dict__.items()`
    lists them. *)
Definition items : list (string * Z) :=
  [("OK", OK); ("Canceled", Canceled); ("Unknown", Unknown);
   ("InvalidArgument", InvalidArgument);
   ("DeadlineExceeded", DeadlineExceeded); ("NotFound", NotFound);
   ("AlreadyExists", AlreadyExists);
   ("PermissionDenied", PermissionDenied);
   ("ResourceExhausted", ResourceExhausted);
   ("FailedPrecondition", FailedPrecondition); ("Aborted", Aborted);
   ("OutOfRange", OutOfRange); ("Unimplemented", Unimplemented);
   ("Internal", Internal); ("Unavailable", Unavailable);
   ("DataLoss", DataLoss); ("Unauthenticated", Unauthenticated)].
End GRPCCode.

(** `{v: k for k, v in GRPCCode.__dict__.items() ...}` *)
Definition GRPCcodeToText : gmap Z string :=
  foldl (fun m kv => <[kv.2 := kv.1]> m) ∅ GRPCCode.items.

(** ** The exception classes below [Etcd3ClientError] *)

Inductive errclass : Type :=
| Etcd3ClientError
| Unknown | InvalidArgument | DeadlineExceeded | NotFound
| FailedPrecondition | OutOfRange | Unavailable
| EmptyKey | KeyNotFound | ValueProvided | LeaseProvided | TooManyOps
| DuplicateKey | Compacted | FutureRev | NoSpace | LeaseNotFound
| LeaseExist | LeaseTTLTooLarge | MemberExist | PeerURLExist
| MemberNotEnoughStarted | MemberBadURLs | MemberNotFound
| MemberNotLearner | MemberLearnerNotReady | TooManyLearners
| RequestTooLarge | TooManyRequests | RootUserNotExist | RootRoleNotExist
| UserAlreadyExist | UserEmpty | UserNotFound | RoleAlreadyExist
| RoleNotFound | RoleEmpty | AuthFailed | PermissionDenied
| RoleNotGranted | PermissionNotGranted | AuthNotEnabled
| InvalidAuthToken | InvalidAuthMgmt | NoLeader | NotLeader
| LeaderChanged | NotCapable | Stopped | Timeout
| TimeoutDueToLeaderFail | TimeoutDueToConnectionLost | Unhealthy
| Corrupt | BadLeaderTransferee.

#[global] Instance errclass_eq_dec : EqDecision errclass.
Proof. solve_decision. Defined.

(** What a `class` statement declares: the base class and the attributes
    set in the class body. *)
Record class_decl : Type := ClassDecl {
  base : option errclass;
  own_code : option Z;
  own_error : option string
}.

Definition category (c : Z) : class_decl :=
  ClassDecl (Some Etcd3ClientError) (Some c) None.
Definition category_with (c : Z) (msg : string) : class_decl :=
  ClassDecl (Some Etcd3ClientError) (Some c) (Some msg).
Definition refines (b : errclass) (msg : string) : class_decl :=
  ClassDecl (Some b) None (Some msg).

Definition decl (c : errclass) : class_decl :=
  match c with
  | Etcd3ClientError => ClassDecl None None None
  | Unknown => category GRPCCode.Unknown
  | InvalidArgument => category GRPCCode.InvalidArgument
  | DeadlineExceeded =>
      category_with GRPCCode.DeadlineExceeded "context deadline exceeded"
  | NotFound => category GRPCCode.NotFound
  | FailedPrecondition => category GRPCCode.FailedPrecondition
  | OutOfRange => category GRPCCode.OutOfRange
  | Unavailable => category GRPCCode.Unavailable
  | EmptyKey => refines InvalidArgument "etcdserver: key is not provided"
  | KeyNotFound => refines InvalidArgument "etcdserver: key not found"
  | ValueProvided => refines InvalidArgument "etcdserver: value is provided"
  | LeaseProvided => refines InvalidArgument "etcdserver: lease is provided"
  | TooManyOps =>
      refines InvalidArgument "etcdserver: too many operations in txn request"
  | DuplicateKey =>
      refines InvalidArgument "etcdserver: duplicate key given in txn request"
  | Compacted =>
      refines OutOfRange "etcdserver: mvcc: required revision has been compacted"
  | FutureRev =>
      refines OutOfRange "etcdserver: mvcc: required revision is a future revision"
  | NoSpace =>
      category_with GRPCCode.ResourceExhausted
                    "etcdserver: mvcc: database space exceeded"
  | LeaseNotFound => refines NotFound "etcdserver: requested lease not found"
  | LeaseExist => refines FailedPrecondition "etcdserver: lease already exists"
  | LeaseTTLTooLarge => refines OutOfRange "etcdserver: too large lease TTL"
  | MemberExist =>
      refines FailedPrecondition "etcdserver: member ID already exist"
  | PeerURLExist =>
      refines FailedPrecondition "etcdserver: Peer URLs already exists"
  | MemberNotEnoughStarted =>
      refines FailedPrecondition
        "etcdserver: re-configuration failed due to not enough started members"
  | MemberBadURLs =>
      refines InvalidArgument "etcdserver: given member URLs are invalid"
  | MemberNotFound => refines NotFound "etcdserver: member not found"
  | MemberNotLearner =>
      refines FailedPrecondition "etcdserver: can only promote a learner member"
  | MemberLearnerNotReady =>
      refines FailedPrecondition
        "etcdserver: can only promote a learner member which is in sync with leader"
  | TooManyLearners =>
      refines FailedPrecondition
        "etcdserver: too many learner members in cluster"
  | RequestTooLarge =>
      refines InvalidArgument "etcdserver: request is too large"
  | TooManyRequests =>
      category_with GRPCCode.ResourceExhausted "etcdserver: too many requests"
  | RootUserNotExist =>
      refines FailedPrecondition "etcdserver: root user does not exist"
  | RootRoleNotExist =>
      refines FailedPrecondition "etcdserver: root user does not have root role"
  | UserAlreadyExist =>
      refines FailedPrecondition "etcdserver: user name already exists"
  | UserEmpty => refines InvalidArgument "etcdserver: user name is empty"
  | UserNotFound =>
      refines FailedPrecondition "etcdserver: user name not found"
  | RoleAlreadyExist =>
      refines FailedPrecondition "etcdserver: role name already exists"
  | RoleNotFound =>
      refines FailedPrecondition "etcdserver: role name not found"
  | RoleEmpty => refines InvalidArgument "etcdserver: role name is empty"
  | AuthFailed =>
      refines InvalidArgument
        "etcdserver: authentication failed, invalid user ID or password"
  | PermissionDenied =>
      category_with GRPCCode.PermissionDenied "etcdserver: permission denied"
  | RoleNotGranted =>
      refines FailedPrecondition "etcdserver: role is not granted to the user"
  | PermissionNotGranted =>
      refines FailedPrecondition
        "etcdserver: permission is not granted to the role"
  | AuthNotEnabled =>
      refines FailedPrecondition "etcdserver: authentication is not enabled"
  | InvalidAuthToken =>
      category_with GRPCCode.Unauthenticated "etcdserver: invalid auth token"
  | InvalidAuthMgmt =>
      refines InvalidArgument "etcdserver: invalid auth management"
  | NoLeader => refines Unavailable "etcdserver: no leader"
  | NotLeader => refines FailedPrecondition "etcdserver: not leader"
  | LeaderChanged => refines Unavailable "etcdserver: leader changed"
  | NotCapable => refines Unavailable "etcdserver: not capable"
  | Stopped => refines Unavailable "etcdserver: server stopped"
  | Timeout => refines Unavailable "etcdserver: request timed out"
  | TimeoutDueToLeaderFail =>
      refines Unavailable
        "etcdserver: request timed out, possibly due to previous leader failure"
  | TimeoutDueToConnectionLost =>
      refines Unavailable
        "etcdserver: request timed out, possibly due to connection lost"
  | Unhealthy => refines Unavailable "etcdserver: unhealthy cluster"
  | Corrupt => category_with GRPCCode.DataLoss "etcdserver: corrupt cluster"
  | BadLeaderTransferee =>
      refines FailedPrecondition "etcdserver: bad leader transferee"
  end.

(** The classes in the order of their `class` statements; it is the order
    in which `__subclasses__()` lists the children of a class. *)
Definition classes : list errclass :=
  [Etcd3ClientError;
   Unknown; InvalidArgument; DeadlineExceeded; NotFound;
   FailedPrecondition; OutOfRange; Unavailable;
   EmptyKey; KeyNotFound; ValueProvided; LeaseProvided; TooManyOps;
   DuplicateKey; Compacted; FutureRev; NoSpace; LeaseNotFound;
   LeaseExist; LeaseTTLTooLarge; MemberExist; PeerURLExist;
   MemberNotEnoughStarted; MemberBadURLs; MemberNotFound;
   MemberNotLearner; MemberLearnerNotReady; TooManyLearners;
   RequestTooLarge; TooManyRequests; RootUserNotExist; RootRoleNotExist;
   UserAlreadyExist; UserEmpty; UserNotFound; RoleAlreadyExist;
   RoleNotFound; RoleEmpty; AuthFailed; PermissionDenied;
   RoleNotGranted; PermissionNotGranted; AuthNotEnabled;
   InvalidAuthToken; InvalidAuthMgmt; NoLeader; NotLeader;
   LeaderChanged; NotCapable; Stopped; Timeout;
   TimeoutDueToLeaderFail; TimeoutDueToConnectionLost; Unhealthy;
   Corrupt; BadLeaderTransferee].

(** The chain of a class and its ancestors, nearest first (the part of the
    method resolution order that lies in this module).  The fuel bounds the
    length of the chain; [length classes] can never be exceeded. *)
Fixpoint mro_fuel (fuel : nat) (c : errclass) : list errclass :=
  match base (decl c) with
  | None => [c]
  | Some b =>
      match fuel with
      | O => [c]
      | S fuel' => c :: mro_fuel fuel' b
      end
  end.

Definition mro (c : errclass) : list errclass := mro_fuel (List.length classes) c.

(** `issubclass(c, d)` *)
Definition issubclass (c d : errclass) : bool :=
  bool_decide (d ∈ mro c).

(** Attribute lookup on a class: the first declaration along the chain.
    Nothing above [Etcd3ClientError] (`etcd.EtcdException`, `Exception`)
    defines `code` or `error`. *)
Fixpoint first_some {A} (f : class_decl -> option A) (l : list errclass)
  : option A :=
  match l with
  | [] => None
  | c :: l' =>
      match f (decl c) with
      | Some a => Some a
      | None => first_some f l'
      end
  end.

Definition class_code (c : errclass) : option Z := first_some own_code (mro c).
Definition class_error (c : errclass) : option string :=
  first_some own_error (mro c).

(** `hasattr(s, 'error')` *)
Definition hasattr_error (c : errclass) : bool :=
  match class_error c with Some _ => true | None => false end.

(** `cls.__subclasses__()`: the direct subclasses, in definition order. *)
Definition subclasses (c : errclass) : list errclass :=
  List.filter (fun d => bool_decide (base (decl d) = Some c)) classes.

(** The generator `get_subclasses`: for each direct subclass first its own
    descendants, then the subclass itself. *)
Fixpoint get_subclasses_fuel (fuel : nat) (c : errclass) : list errclass :=
  match fuel with
  | O => []
  | S fuel' =>
      flat_map (fun s => get_subclasses_fuel fuel' s ++ [s]) (subclasses c)
  end.

Definition get_subclasses (c : errclass) : list errclass :=
  get_subclasses_fuel (List.length classes) c.

(** `{s.error: s for s in Etcd3ClientError.get_subclasses()
      if hasattr(s, 'error')}`; a later class replaces an earlier one with
    the same key. *)
Definition errStringToClientError : gmap string errclass :=
  foldl (fun m s => match class_error s with
                    | Some e => <[e := s]> m
                    | None => m
                    end)
        ∅ (get_subclasses Etcd3ClientError).

(** `{s.code: s for s in Etcd3ClientError.get_subclasses()
      if not hasattr(s, 'error')}` *)
Definition errCodeToClientError : gmap Z errclass :=
  foldl (fun m s => match class_error s, class_code s with
                    | None, Some c => <[c := s]> m
                    | _, _ => m
                    end)
        ∅ (get_subclasses Etcd3ClientError).

#[global] Arguments GRPCcodeToText : simpl never.
#[global] Arguments errStringToClientError : simpl never.
#[global] Arguments errCodeToClientError : simpl never.

(** ** Exceptions and results *)

(** An instance of [Etcd3ClientError] or of one of its subclasses: its
    class and the attributes `__init__` sets.  [err_error] is the instance
    attribute `error`; it is only set when the class has none. *)
Record Etcd3ClientError_obj : Type := ClientErrorObj {
  err_class : errclass;
  err_error : option string;
  err_codeText : option string;
  err_status : Z
}.

(** `self.error`: the instance attribute, else the class attribute. *)
Definition error_of (e : Etcd3ClientError_obj) : option string :=
  match err_error e with
  | Some s => Some s
  | None => class_error (err_class e)
  end.

(** `self.code`: always the class attribute. *)
Definition code_of (e : Etcd3ClientError_obj) : option Z :=
  class_code (err_class e).

Inductive exn : Type :=
| ClientError (e : Etcd3ClientError_obj)
| AttributeError
| TypeError
| KeyError
| IndexError
| ValueError
| RetryFailedError
| EtcdError (msg : string)
| EtcdException (msg : string)
| OtherError (name : string).

Inductive result (A : Type) : Type :=
| Ok (a : A)
| Raise (e : exn).
Arguments Ok {A} a.
Arguments Raise {A} e.

#[global] Instance result_ret : MRet result := fun A a => Ok a.
#[global] Instance result_bind : MBind result :=
  fun A B f m => match m with Ok a => f a | Raise e => Raise e end.

(** ** Library functions on text *)

(** The characters `str.strip()` removes (the ASCII white space). *)
Definition is_space (c : ascii) : bool :=
  let n := N_of_ascii c in
  ((9 <=? n) && (n <=? 13) || (28 <=? n) && (n <=? 32))%N.

Fixpoint lstrip_space (s : string) : string :=
  match s with
  | String c s' => if is_space c then lstrip_space s' else s
  | EmptyString => EmptyString
  end.

(** Removes trailing white space: a character is kept when something other
    than white space follows it or when it is not white space itself. *)
Fixpoint rstrip_space (s : string) : string :=
  match s with
  | EmptyString => EmptyString
  | String c s' =>
      match rstrip_space s' with
      | EmptyString => if is_space c then EmptyString else String c EmptyString
      | r => String c r
      end
  end.

Definition strip (s : string) : string := rstrip_space (lstrip_space s).

(** `v.strip()` on an arbitrary value: only text has the method. *)
Definition py_strip (v : pyval) : result string :=
  match v with
  | PStr s => Ok (strip s)
  | _ => Raise AttributeError
  end.

(** `d.get(k)` on a dictionary keyed by text, for an arbitrary key value:
    lists and dictionaries are unhashable, a key of another type is never
    found. *)
Definition get_by_text {V} (m : gmap string V) (k : pyval)
  : result (option V) :=
  match k with
  | PStr s => Ok (m !! s)
  | PList _ | PDict _ => Raise TypeError
  | _ => Ok None
  end.

(** `d.get(k)` on a dictionary keyed by integers; `True` and `False` hash
    and compare as 1 and 0. *)
Definition get_by_int {V} (m : gmap Z V) (k : pyval) : result (option V) :=
  match k with
  | PInt z => Ok (m !! z)
  | PBool b => Ok (m !! (if b then 1 else 0))
  | PList _ | PDict _ => Raise TypeError
  | _ => Ok None
  end.

(** `d.get(k, dflt)` and `d.get(k)` on a value that may or may not be a
    dictionary. *)
Definition py_get_default (v : pyval) (k : string) (dflt : pyval)
  : result pyval :=
  match v with
  | PDict d => Ok (default dflt (dict_lookup d k))
  | _ => Raise AttributeError
  end.

Definition py_get (v : pyval) (k : string) : result pyval :=
  py_get_default v k PNone.

(** `d[k]` on a value that may or may not be a dictionary (the values met
    here are dictionaries or scalars). *)
Definition py_getitem (v : pyval) (k : string) : result pyval :=
  match v with
  | PDict d =>
      match dict_lookup d k with
      | Some x => Ok x
      | None => Raise KeyError
      end
  | _ => Raise TypeError
  end.

(** ** Construction of an error instance *)

(** `Etcd3ClientError.__init__(self, code=None, error=None, status=None)`,
    inherited by every class of the taxonomy. *)
Definition Etcd3ClientError__init__ (cls : errclass)
    (code error : pyval) (status : Z) : result Etcd3ClientError_obj :=
  self_error ← (if hasattr_error cls then Ok None
                else s ← py_strip error; Ok (Some s));
  text ← get_by_int GRPCcodeToText code;
  Ok (ClientErrorObj cls self_error text status).

(** ** Decoding an HTTP response *)

Record HTTPResponse : Type := Response {
  status : Z;
  data : string
}.

Section Decoder.

(** `json.loads`, [None] when the text is not valid JSON. *)
Variable json_loads : string -> option pyval.

(** The `try` block of `_raise_for_status` with its `except Exception`
    handler: the pair `(error, code)` the function goes on with.  When
    `json.loads` has succeeded, the handler finds the parsed value in
    `data`. *)
Definition extract_error (data : string) : pyval * pyval :=
  match json_loads data with
  | None => (PStr data, PInt GRPCCode.Unknown)
  | Some parsed =>
      match parsed with
      | PDict d =>
          let error := default PNone (dict_lookup d "error") in
          match error with
          | PDict e =>
              match dict_lookup e "grpc_code", dict_lookup e "message" with
              | Some code, Some message => (message, code)
              | _, _ => (parsed, PInt GRPCCode.Unknown)
              end
          | _ => (error, default PNone (dict_lookup d "code"))
          end
      | _ => (parsed, PInt GRPCCode.Unknown)
      end
  end.

(** `errStringToClientError.get(error) or errCodeToClientError.get(code)
    or Unknown` *)
Definition select_class (error code : pyval) : result errclass :=
  by_text ← get_by_text errStringToClientError error;
  match by_text with
  | Some c => Ok c
  | None =>
      by_code ← get_by_int errCodeToClientError code;
      Ok (default Unknown by_code)
  end.

(** `_raise_for_status(response)`: [Ok tt] is the plain `return`.  The
    last line calls the class with the positional arguments
    `(error, code, response.status)`, which `__init__` receives as its
    parameters `(code, error, status)` in that order. *)
Definition _raise_for_status (response : HTTPResponse) : result unit :=
  if status response <? 400 then Ok tt
  else
    let '(error, code) := extract_error (data response) in
    err ← select_class error code;
    e ← Etcd3ClientError__init__ err error code (status response);
    Raise (ClientError e).

(** `Etcd3Client._handle_server_response` *)
Definition _handle_server_response (response : HTTPResponse)
  : result pyval :=
  _ ← _raise_for_status response;
  match json_loads (data response) with
  | Some v => Ok v
  | None => Raise (EtcdException "Server response was not valid JSON")
  end.

End Decoder.

(** ** Byte strings *)

(** A key or value handed to the client: `bytes`, or text. *)
Inductive pytext : Type :=
| Bytes (b : list byte)
| Str (s : string).

(** `Etcd3Client.to_bytes`: `v if isinstance(v, bytes) else
    v.encode('utf-8')` *)
Definition to_bytes (v : pytext) : list byte :=
  match v with
  | Bytes b => b
  | Str s => list_byte_of_string s
  end.

(** `base64.b64encode` of the standard library: RFC 4648 alphabet, padded
    with `=`.  Every group of three bytes gives four characters. *)
Definition b64_alphabet : string :=
  "ABCDEFGHIJKLMNOPQRSTUVWXYZabcdefghijklmnopqrstuvwxyz0123456789+/".

Definition b64_char (n : N) : ascii :=
  default "="%char (String.get (N.to_nat n) b64_alphabet).

Fixpoint b64encode (bs : list byte) : string :=
  match bs with
  | [] => EmptyString
  | [a] =>
      let n := (Byte.to_N a * 65536)%N in
      String (b64_char (n / 262144))
        (String (b64_char ((n / 4096) mod 64)) "==")
  | [a; b] =>
      let n := (Byte.to_N a * 65536 + Byte.to_N b * 256)%N in
      String (b64_char (n / 262144))
        (String (b64_char ((n / 4096) mod 64))
           (String (b64_char ((n / 64) mod 64)) "="))
  | a :: b :: c :: rest =>
      let n := (Byte.to_N a * 65536 + Byte.to_N b * 256 + Byte.to_N c)%N in
      String (b64_char (n / 262144))
        (String (b64_char ((n / 4096) mod 64))
           (String (b64_char ((n / 64) mod 64))
              (String (b64_char (n mod 64)) (b64encode rest))))
  end.

(** `Etcd3Client.base64_encode` *)
Definition base64_encode (v : pytext) : string := b64encode (to_bytes v).

(** `Etcd3Client.increment_last_byte`: the key is copied into a
    `bytearray`, `v[-1] += 1` reads the last item, adds one and stores it
    back.  Indexing an empty `bytearray` raises `IndexError`; storing a
    value outside `range(0, 256)` raises `ValueError`. *)
Definition increment_last_byte (v : pytext) : result (list byte) :=
  let v := to_bytes v in
  match last v with
  | None => Raise IndexError
  | Some b =>
      match Byte.of_N (Byte.to_N b + 1) with
      | None => Raise ValueError
      | Some b' => Ok (<[Nat.pred (List.length v) := b']> v)
      end
  end.

(** ** More library functions: `split`, `int`, tuple comparison *)

(** `s.split(sep)` for a one-character separator. *)
Fixpoint split_on (sep : ascii) (s : string) : list string :=
  match s with
  | EmptyString => [EmptyString]
  | String c s' =>
      if Ascii.eqb c sep then EmptyString :: split_on sep s'
      else match split_on sep s' with
           | h :: t => String c h :: t
           | [] => [String c EmptyString]
           end
  end.

Fixpoint digits_value (acc : Z) (s : string) : option Z :=
  match s with
  | EmptyString => Some acc
  | String c s' =>
      let n := N_of_ascii c in
      if ((48 <=? n) && (n <=? 57))%N
      then digits_value (10 * acc + Z.of_N (n - 48)) s'
      else None
  end.

(** `int(x)` on text: surrounding white space, an optional sign, then at
    least one decimal digit.  (Digit-group underscores, which newer
    interpreters also accept, are rejected here.) *)
Definition py_int (s : string) : result Z :=
  let digits (neg : bool) (d : string) : result Z :=
    match d with
    | EmptyString => Raise ValueError
    | _ => match digits_value 0 d with
           | Some z => Ok (if neg then - z else z)
           | None => Raise ValueError
           end
    end in
  match strip s with
  | String "+" d => digits false d
  | String "-" d => digits true d
  | d => digits false d
  end.

(** `a < b` on tuples of integers: lexicographic, a proper prefix is
    smaller. *)
Fixpoint tuple_ltb (a b : list Z) : bool :=
  match a, b with
  | _, [] => false
  | [], _ :: _ => true
  | x :: a', y :: b' =>
      if x <? y then true else if x =? y then tuple_ltb a' b' else false
  end.

(** `tuple(int(x) for x in text.split('.'))` *)
Definition parse_version (text : string) : result (list Z) :=
  mapM py_int (split_on "." text).

(** `s[n:]` *)
Fixpoint drop_chars (n : nat) (s : string) : string :=
  match n, s with
  | O, _ => s
  | S n', String _ s' => drop_chars n' s'
  | S _, EmptyString => EmptyString
  end.

(** `s.lstrip(c)` for a single character, and `s.count(c)` *)
Fixpoint lstrip_char (c : ascii) (s : string) : string :=
  match s with
  | String c' s' => if Ascii.eqb c' c then lstrip_char c s' else s
  | EmptyString => EmptyString
  end.

Fixpoint count_char (c : ascii) (s : string) : nat :=
  match s with
  | String c' s' => (if Ascii.eqb c' c then 1 else 0) + count_char c s'
  | EmptyString => 0
  end%nat.

(** `os.path.basename`: what follows the last slash. *)
Definition basename (s : string) : string :=
  default EmptyString (last (split_on "/" s)).

(** `node[k]` where the code goes on to use the item as text. *)
Definition node_text (node : pyval) (k : string) : result string :=
  v ← py_getitem node k;
  match v with
  | PStr s => Ok s
  | _ => Raise TypeError
  end.

(** `x and f(x)` on an optional node of the index. *)
Definition and_then (node : option pyval) (f : pyval -> result pyval)
  : result pyval :=
  match node with
  | Some n => if truthy n then f n else Ok n
  | None => Ok PNone
  end.

(** ** The state of the driver and the trace of its external calls *)

(** What leaves the process: a POST through `api_execute`, the GET of the
    unversioned `/version` endpoint, a reading of the clock. *)
Inductive event : Type :=
| EvRpc (path : string) (fields : pyval)
| EvGetVersion
| EvTime.

(** `patroni.dcs.Member` and `patroni.dcs.Leader` are named tuples
    `(index, name, session, data)` and `(index, session, member)`. *)
Record Member : Type := mkMember {
  member_index : pyval;
  member_name : string;
  member_session : pyval;
  member_data : pyval
}.

Record Leader : Type := mkLeader {
  leader_index : pyval;
  leader_session : pyval;
  leader_member : Member
}.

(** Modelled from the spec: the property `Leader.name` of the value types
    (outside this module); the leader record is named after the member it
    holds. *)
Definition Leader_name (l : Leader) : string := member_name (leader_member l).

(** `patroni.dcs.Cluster`; the components built by the external parsers are
    kept as Python values. *)
Record Cluster : Type := mkCluster {
  initialize : pyval;
  config : pyval;
  leader : option Leader;
  last_leader_operation : Z;
  members : list Member;
  failover : pyval;
  sync : pyval;
  history : pyval
}.

(** The mutable fields of [Etcd3] and of its [Etcd3Client] that the
    embedded methods read or write, and the trace so far. *)
Record world : Type := mkWorld {
  version_prefix : string;
  _lease : pyval;
  _last_lease_refresh : Z;
  _loop_wait : Z;
  _ttl : Z;
  _name : string;
  cluster : option Cluster;
  trace : list event
}.

Definition set_version_prefix (p : string) (w : world) : world :=
  mkWorld p (_lease w) (_last_lease_refresh w) (_loop_wait w) (_ttl w)
          (_name w) (cluster w) (trace w).
Definition set_lease (l : pyval) (w : world) : world :=
  mkWorld (version_prefix w) l (_last_lease_refresh w) (_loop_wait w)
          (_ttl w) (_name w) (cluster w) (trace w).
Definition set_last_lease_refresh (t : Z) (w : world) : world :=
  mkWorld (version_prefix w) (_lease w) t (_loop_wait w) (_ttl w)
          (_name w) (cluster w) (trace w).
Definition emit (ev : event) (w : world) : world :=
  mkWorld (version_prefix w) (_lease w) (_last_lease_refresh w)
          (_loop_wait w) (_ttl w) (_name w) (cluster w) (trace w ++ [ev]).

(** A method body: from the state before the call to the value returned or
    the exception raised, and the state after. *)
Definition M (A : Type) : Type := world -> result A * world.

#[global] Instance M_ret : MRet M := fun A a w => (Ok a, w).
#[global] Instance M_bind : MBind M :=
  fun A B f m w =>
    match m w with
    | (Ok a, w') => f a w'
    | (Raise e, w') => (Raise e, w')
    end.

Definition get {A} (f : world -> A) : M A := fun w => (Ok (f w), w).
Definition modify (f : world -> world) : M unit := fun w => (Ok tt, f w).
Definition lift {A} (r : result A) : M A := fun w => (r, w).
Definition raise {A} (e : exn) : M A := fun w => (Raise e, w).

(** `try: body  except <handled>: handler`: [handler e] is [None] for an
    exception the clause does not name. *)
Definition try_except {A} (body : M A) (handler : exn -> option (M A))
  : M A :=
  fun w =>
    match body w with
    | (Raise e, w') =>
        match handler e with
        | Some h => h w'
        | None => (Raise e, w')
        end
    | r => r
    end.

(** The logger leaves no mark on the state. *)
Definition log (msg : string) : M unit := mret tt.

Section Driver.

(** *** The collaborators outside the module *)

(** `api_execute(path, POST, fields)` of the failover client: the parsed
    response or the exception raised, as a function of everything the
    process has done so far. *)
Variable api_execute : list event -> string -> pyval -> result pyval.

(** The executor's answer to the GET of `/version`. *)
Variable request_version : list event -> result HTTPResponse.

(** `time.time()`, in ticks of the clock. *)
Variable time_time : list event -> Z.

(** `json.loads`, [None] when the text is not valid JSON. *)
Variable json_loads : string -> option pyval.

(** The number of further attempts the retry deadline leaves room for. *)
Variable retry_budget : nat.

(** `AbstractDCS.client_path`, the paths of the leader key and of the
    member's own key (`self.leader_path`, `self.member_path`), and the key
    names below the cluster's path. *)
Variable client_path : string -> string.
Variables leader_path member_path : string.
Variables _INITIALIZE _CONFIG _HISTORY _LEADER_OPTIME : string.
Variables _MEMBERS _LEADER _FAILOVER _SYNC : string.

(** The parsers of the value types: `Member.from_node(index, name,
    session, value)`, and `from_node(index, value)` of `ClusterConfig`,
    `TimelineHistory`, `Failover` and `SyncState`. *)
Variable Member_from_node : pyval -> string -> pyval -> string -> Member.
Variable ClusterConfig_from_node : pyval -> pyval -> pyval.
Variable TimelineHistory_from_node : pyval -> pyval -> pyval.
Variable Failover_from_node : pyval -> pyval -> pyval.
Variable SyncState_from_node : pyval -> pyval -> pyval.

(** `base64.b64decode(v).decode('utf-8')` *)
Variable base64_decode : pyval -> result string.

(** `json.dumps(data, separators=(',', ':'))` *)
Variable json_dumps : pyval -> string.

(** *** Etcd3Client *)

(** `call_rpc(method, fields)` *)
Definition call_rpc (method : string) (fields : pyval) : M pyval :=
  fun w =>
    let path := (version_prefix w ++ method)%string in
    (api_execute (trace w) path fields, emit (EvRpc path fields) w).

Definition now : M Z :=
  fun w => (Ok (time_time (trace w)), emit EvTime w).

(** `_ensure_version_prefix` *)
Definition _ensure_version_prefix : M unit :=
  prefix ← get version_prefix;
  if negb (String.eqb prefix "/v3") then
    response ← (fun w => (request_version (trace w), emit EvGetVersion w));
    body ← lift (_handle_server_response json_loads response);
    cluster_version ← lift (py_getitem body "etcdcluster");
    cluster_version ← lift (match cluster_version with
                            | PStr text => parse_version text
                            | _ => Raise AttributeError
                            end);
    if tuple_ltb cluster_version [3; 3] then
      modify (set_version_prefix "/v3alpha")
    else if tuple_ltb cluster_version [3; 4] then
      modify (set_version_prefix "/v3beta")
    else
      modify (set_version_prefix "/v3")
  else mret tt.

(** `if range_end:` on an optional byte string or text *)
Definition nonempty (v : option pytext) : bool :=
  match v with
  | None => false
  | Some (Bytes b) => match b with [] => false | _ => true end
  | Some (Str s) => negb (String.eqb s "")
  end.

Definition build_range_request (key : pytext) (range_end : option pytext)
  : list (string * pyval) :=
  let fields := [("key", PStr (base64_encode key))] in
  match range_end with
  | Some r =>
      if nonempty range_end
      then dict_set fields "range_end" (PStr (base64_encode r))
      else fields
  | None => fields
  end.

Definition range (key : pytext) (range_end : option pytext) : M pyval :=
  call_rpc "/kv/range" (PDict (build_range_request key range_end)).

Definition prefix (key : pytext) : M pyval :=
  range_end ← lift (increment_last_byte key);
  range key (Some (Bytes range_end)).

Definition lease_grant (ttl : pyval) : M pyval :=
  r ← call_rpc "/lease/grant" (PDict [("TTL", ttl)]);
  lift (py_getitem r "ID").

(** `.get('result', {}).get('TTL')` *)
Definition lease_keepalive (ID : pyval) : M pyval :=
  r ← call_rpc "/lease/keepalive" (PDict [("ID", ID)]);
  lift (res ← py_get_default r "result" (PDict []);
        py_get res "TTL").

(** `put(key, value, lease=None, create_revision=None,
    mod_revision=None)` *)
Definition put (key value : pytext)
    (lease create_revision mod_revision : pyval) : M pyval :=
  let fields := [("key", PStr (base64_encode key));
                 ("value", PStr (base64_encode value))] in
  let fields := if truthy lease then dict_set fields "lease" lease
                else fields in
  let txn (compare : list (string * pyval)) : M pyval :=
    let compare :=
      dict_set compare "key" (default PNone (dict_lookup fields "key")) in
    r ← call_rpc "/kv/txn"
          (PDict [("compare", PList [PDict compare]);
                  ("success", PList [PDict [("request_put", PDict fields)]])]);
    lift (py_get r "succeeded") in
  if negb (is_None create_revision) then
    txn [("target", PStr "CREATE"); ("create_revision", create_revision)]
  else if negb (is_None mod_revision) then
    txn [("target", PStr "MOD"); ("mod_revision", mod_revision)]
  else
    call_rpc "/kv/put" (PDict fields).

(** `deleterange(key, range_end=None, mod_revision=None)` *)
Definition deleterange (key : pytext) (range_end : option pytext)
    (mod_revision : pyval) : M pyval :=
  let fields := build_range_request key range_end in
  if is_None mod_revision then
    call_rpc "/kv/deleterange" (PDict fields)
  else
    let compare := [("target", PStr "MOD"); ("mod_revision", mod_revision);
                    ("key", default PNone (dict_lookup fields "key"))] in
    ret ← call_rpc "/kv/txn"
            (PDict [("compare", PList [PDict compare]);
                    ("success",
                     PList [PDict [("request_delete_range", PDict fields)]])]);
    lift (py_get ret "succeeded").

Definition deleteprefix (key : pytext) : M pyval :=
  range_end ← lift (increment_last_byte key);
  deleterange key (Some (Bytes range_end)) PNone.

(** *** Etcd3: construction and the retry primitive *)

(** The `retry_exceptions` handed to `Retry` in `Etcd3.__init__`. *)
Definition retry_exceptions : list errclass := [DeadlineExceeded; Unavailable].

(** Modelled from the spec: the bounded-retry primitive
    (`patroni.utils.Retry`, outside this module) is "restricted to the
    retryable error categories": an exception is retried when it is an
    instance of one of the classes it was configured with. *)
Definition is_retryable (e : exn) : bool :=
  match e with
  | ClientError o => existsb (issubclass (err_class o)) retry_exceptions
  | _ => false
  end.

(** Modelled from the spec: `retry(operation, deadline,
    retryable-categories)` runs the operation again after a retryable
    failure while the deadline allows, gives up with its own failure
    after that, and lets every other exception through at once. *)
Fixpoint Retry {A} (budget : nat) (operation : M A) : M A :=
  fun w =>
    match operation w with
    | (Raise e, w') =>
        if is_retryable e then
          match budget with
          | O => (Raise RetryFailedError, w')
          | S budget' => Retry budget' operation w'
          end
        else (Raise e, w')
    | r => r
    end.

(** Modelled from the spec: `self.retry(f, *args)`, inherited from the
    sibling module, routes the call through the retry primitive configured
    in `__init__`. *)
Definition retry {A} (operation : M A) : M A := Retry retry_budget operation.

(** *** Lease manager *)

Definition _do_refresh_lease : M bool :=
  lease ← get _lease;
  last ← get _last_lease_refresh;
  loop_wait ← get _loop_wait;
  fresh ← (if truthy lease
           then t ← now; mret (t <? last + loop_wait)
           else mret false);
  if (fresh : bool) then mret false
  else
    _ ← (if truthy lease then
           ttl ← lease_keepalive lease;
           if negb (truthy ttl) then modify (set_lease PNone) else mret tt
         else mret tt);
    lease ← get _lease;
    let ret := negb (truthy lease) in
    _ ← (if ret then
           ttl ← get _ttl;
           ID ← lease_grant (PInt ttl);
           modify (set_lease ID)
         else mret tt);
    t ← now;
    _ ← modify (set_last_lease_refresh t);
    mret ret.

Definition refresh_lease : M bool :=
  try_except (retry _do_refresh_lease)
    (fun e =>
       match e with
       | ClientError _ | RetryFailedError =>
           Some (_ ← log "refresh_lease";
                 raise (EtcdError "Failed ro keepalive/grant lease"))
       | _ => None
       end).

(** *** Member key and leader election

    `touch_member`, `take_leader`, `_update_leader` and `delete_leader`
    are wrapped by the decorator `catch_etcd_errors` of the sibling module;
    what is embedded is the decorated body. *)

(** `None if permanent else self._lease` *)
Definition own_lease (permanent : bool) : M pyval :=
  if permanent then mret PNone else get _lease.


Definition take_leader : M pyval :=
  name ← get _name;
  lease ← get _lease;
  retry (put (Str leader_path) (Str name) lease PNone PNone).

Definition _do_attempt_to_acquire_leader (permanent : bool) : M pyval :=
  name ← get _name;
  try_except
    (lease ← own_lease permanent;
     retry (put (Str leader_path) (Str name) lease (PInt 0) PNone))
    (fun e =>
       match e with
       | ClientError o =>
           if issubclass (err_class o) LeaseNotFound then
             Some (_ ← modify (set_lease PNone);
                   _ ← log "Our lease disappeared from Etcd. Will try to get a new one and retry attempt";
                   _ ← refresh_lease;
                   lease ← own_lease permanent;
                   retry (put (Str leader_path) (Str name) lease (PInt 0) PNone))
           else None
       | _ => None
       end).

Definition attempt_to_acquire_leader (permanent : bool) : M pyval :=
  lease ← get _lease;
  _ ← (if negb (truthy lease) && negb permanent
       then _ ← refresh_lease; mret tt
       else mret tt);
  ret ← _do_attempt_to_acquire_leader permanent;
  _ ← (if negb (truthy ret) then log "Could not take out TTL lock"
       else mret tt);
  mret ret.

Definition _update_leader : M bool :=
  lease ← get _lease;
  _ ← (if negb (truthy lease) then
         _ ← refresh_lease;
         _ ← take_leader;
         mret tt
       else
         ttl ← retry (lease_keepalive lease);
         if truthy ttl then
           t ← now;
           modify (set_last_lease_refresh t)
         else mret tt);
  lease ← get _lease;
  mret (truthy lease).

(** `delete_leader`: [PNone] is the value of the body that falls off its
    end. *)
Definition delete_leader : M pyval :=
  cluster ← get cluster;
  name ← get _name;
  match cluster with
  | Some c =>
      match leader c with
      | Some l =>
          if String.eqb (Leader_name l) name
          then deleterange (Str leader_path) None (leader_index l)
          else mret PNone
      | None => mret PNone
      end
  | None => mret PNone
  end.

(** *** Cluster snapshot loader *)

(** `Etcd3.member` *)
Definition member (node : pyval) : result Member :=
  index ← py_getitem node "mod_revision";
  key ← node_text node "key";
  lease ← py_getitem node "lease";
  value ← node_text node "value";
  Ok (Member_from_node index (basename key) lease value).

(** One turn of the loop over `result.get('kvs', [])`: the node with its
    key and value decoded and its lease made explicit, and the relative
    path it is filed under. *)
Definition decode_node (path : string) (node : pyval)
  : result (string * pyval) :=
  k ← py_getitem node "key";
  key ← base64_decode k;
  v ← py_get_default node "value" (PStr "");
  value ← base64_decode v;
  lease ← py_get node "lease";
  match node with
  | PDict d =>
      let d := dict_set d "key" (PStr key) in
      let d := dict_set d "value" (PStr value) in
      let d := dict_set d "lease" lease in
      Ok (lstrip_char "/" (drop_chars (String.length path) key), PDict d)
  | _ => Raise TypeError
  end.

Fixpoint index_nodes (path : string) (kvs : list pyval)
    (nodes : list (string * pyval)) : result (list (string * pyval)) :=
  match kvs with
  | [] => Ok nodes
  | node :: rest =>
      kn ← decode_node path node;
      index_nodes path rest (dict_set nodes kn.1 kn.2)
  end.

(** `[self.member(n) for k, n in nodes.items()
      if k.startswith(self._MEMBERS) and k.count('/') == 1]` *)
Definition load_members (nodes : list (string * pyval))
  : result (list Member) :=
  mapM member
    (List.map snd
       (List.filter
          (fun kn => String.prefix _MEMBERS kn.1
                     && Nat.eqb (count_char "/" kn.1) 1)
          nodes)).

(** The block under `# get leader`.  A node of the index is never an
    empty dictionary, so the `if leader:` test only tells a present node
    from an absent one. *)
Definition load_leader (nodes : list (string * pyval))
    (members : list Member) : result (option Leader) :=
  match dict_lookup nodes _LEADER with
  | Some leader =>
      if truthy leader then
        value ← node_text leader "value";
        let member := mkMember (PInt (-1)) value PNone (PDict []) in
        let member :=
          hd member
             (List.filter (fun m => String.eqb (member_name m) value)
                          members) in
        index ← py_getitem leader "mod_revision";
        lease ← py_getitem leader "lease";
        Ok (Some (mkLeader index lease member))
      else Ok None
  | None => Ok None
  end.

(** The body of the `try` block of `_load_cluster`, after the scan. *)
Definition build_cluster (path : string) (scan : pyval)
  : result Cluster :=
  kvs ← match scan with
        | PDict d =>
            match default (PList []) (dict_lookup d "kvs") with
            | PList l => Ok l
            | _ => Raise TypeError
            end
        | _ => Raise AttributeError
        end;
  nodes ← index_nodes path kvs [];
  initialize ← and_then (dict_lookup nodes _INITIALIZE)
                 (fun n => py_getitem n "value");
  config ← and_then (dict_lookup nodes _CONFIG)
             (fun n => r ← py_getitem n "mod_revision";
                       v ← py_getitem n "value";
                       Ok (ClusterConfig_from_node r v));
  history ← and_then (dict_lookup nodes _HISTORY)
              (fun n => r ← py_getitem n "mod_revision";
                        v ← py_getitem n "value";
                        Ok (TimelineHistory_from_node r v));
  last_leader_operation ←
    match dict_lookup nodes _LEADER_OPTIME with
    | None => Ok 0
    | Some n => v ← node_text n "value"; py_int v
    end;
  members ← load_members nodes;
  leader ← load_leader nodes members;
  failover ← and_then (dict_lookup nodes _FAILOVER)
               (fun n => r ← py_getitem n "mod_revision";
                         v ← py_getitem n "value";
                         Ok (Failover_from_node r v));
  sync_revision ← and_then (dict_lookup nodes _SYNC)
                    (fun n => py_getitem n "mod_revision");
  sync_value ← and_then (dict_lookup nodes _SYNC)
                 (fun n => py_getitem n "value");
  Ok (mkCluster initialize config leader last_leader_operation members
                failover (SyncState_from_node sync_revision sync_value)
                history).

(** Modelled from the spec: `_handle_exception(e, name, raise_ex=...)` of
    the sibling module; a failure of the load "signals a generic service
    not responding properly failure to the caller". *)
Definition _handle_exception {A} (e : exn) (name : string) (raise_ex : exn)
  : M A :=
  _ ← log name;
  raise raise_ex.

(** `_load_cluster`: the scan, the assembly, and the handler for every
    exception of the `try` block. *)
Definition _load_cluster : M Cluster :=
  try_except
    (let path := client_path "" in
     scan ← retry (prefix (Str path));
     lift (build_cluster path scan))
    (fun e =>
       Some (_handle_exception e "get_cluster"
               (EtcdError "Etcd is not responding properly"))).

End Driver.

(** ** Further functions of the module *)

(** `dedup_addheader(self, key, value)`, installed as
    `HTTPMessage.addheader`; the map is `self.dict`. *)
Definition dedup_addheader (dict : gmap string string) (key value : string)
  : gmap string string :=
  match dict !! key with
  | None => <[key := value]> dict
  | Some prev =>
      if negb (String.eqb key "transfer-encoding")
         || negb (String.eqb prev value)
      then <[key := (prev ++ ", " ++ value)%string]> dict
      else dict
  end.

Section Bootstrap.

Variable api_execute : list event -> string -> pyval -> result pyval.
Variable time_time : list event -> Z.
Variable retry_budget : nat.

(** `time.sleep(seconds)`: every reading of the clock is made at a trace
    of its own, so a pause needs no mark in the state. *)
Definition sleep (seconds : Z) : M unit := mret tt.

(** `create_lease`: the loop `while not self._lease`.  [None] when the
    fuel, the number of turns allowed, is used up before the loop ends. *)
Fixpoint create_lease (fuel : nat) (w : world)
  : option (result unit * world) :=
  if truthy (_lease w) then Some (Ok tt, w)
  else
    match fuel with
    | O => None
    | S fuel' =>
        match refresh_lease api_execute time_time retry_budget w with
        | (Ok _, w') => create_lease fuel' w'
        | (Raise (EtcdError _), w') =>
            match (_ ← log "waiting on etcd"; sleep 5) w' with
            | (Ok _, w'') => create_lease fuel' w''
            | (Raise e, w'') => Some (Raise e, w'')
            end
        | (Raise e, w') => Some (Raise e, w')
        end
    end.

End Bootstrap.

(** ** Reading base64 back

    A reader for what [b64encode] writes; it serves to show that the
    encoding loses nothing. *)

Fixpoint index_in (c : ascii) (s : string) (i : N) : option N :=
  match s with
  | EmptyString => None
  | String c' s' => if Ascii.eqb c' c then Some i else index_in c s' (i + 1)%N
  end.

Definition b64_index (c : ascii) : option N := index_in c b64_alphabet 0%N.

Definition bytes_of (ns : list N) : option (list byte) := mapM Byte.of_N ns.

Fixpoint b64read (s : string) : option (list byte) :=
  match s with
  | EmptyString => Some []
  | String c0 (String c1 (String c2 (String c3 rest))) =>
      i0 ← b64_index c0;
      i1 ← b64_index c1;
      if Ascii.eqb c2 "=" then
        if Ascii.eqb c3 "=" && String.eqb rest ""
        then bytes_of [(i0 * 4 + i1 / 16)%N]
        else None
      else
        i2 ← b64_index c2;
        if Ascii.eqb c3 "=" then
          if String.eqb rest ""
          then bytes_of [(i0 * 4 + i1 / 16)%N;
                         ((i1 mod 16) * 16 + i2 / 4)%N]
          else None
        else
          i3 ← b64_index c3;
          group ← bytes_of [(i0 * 4 + i1 / 16)%N;
                            ((i1 mod 16) * 16 + i2 / 4)%N;
                            ((i2 mod 4) * 64 + i3)%N];
          tail ← b64read rest;
          Some (group ++ tail)
  | _ => None
  end.

(** ** Nodes of the index *)

(** What the loop of `_load_cluster` leaves in the index: a dictionary
    with a text key, a text value and a lease entry. *)
Definition indexed_node (n : pyval) (key value : string) (lease : pyval)
  : Prop :=
  exists d, n = PDict d /\
            dict_lookup d "key" = Some (PStr key) /\
            dict_lookup d "value" = Some (PStr value) /\
            dict_lookup d "lease" = Some lease.

(** ** Scenarios

    Concrete collaborators and states on which the statements below are
    exercised. *)

Module Scenario.

Definition is_post (ev : event) : bool :=
  match ev with EvRpc _ _ => true | _ => false end.

(** A gateway that gives the n-th POST of the process the n-th answer of
    a script. *)
Definition scripted (answers : list (result pyval))
  : list event -> string -> pyval -> result pyval :=
  fun tr _ _ =>
    nth (List.length (List.filter is_post tr)) answers
        (Raise (OtherError "no answer left")).

(** A clock that starts at 100 and advances by one with every external
    call. *)
Definition clock (tr : list event) : Z := 100 + Z.of_nat (List.length tr).

(** A parser for bodies that consist of the cluster version alone. *)
Definition version_body (text : string) : option pyval :=
  Some (PDict [("etcdserver", PStr text); ("etcdcluster", PStr text)]).

Definition version_answer (text : string)
  : list event -> result HTTPResponse :=
  fun _ => Ok (Response 200 text).

(** A member of the cluster `batman` that holds lease 1001, refreshed at
    time 95 with a loop wait of 10 and a TTL of 30. *)
Definition node1 : world :=
  mkWorld "/v3" (PStr "1001") 95 10 30 "node1" None [].

(** The same member when its last refresh, at time 80, is older than the
    loop wait. *)
Definition overdue : world :=
  mkWorld "/v3" (PStr "1001") 80 10 30 "node1" None [].

Definition fresh_client : world :=
  mkWorld "/v2" PNone 0 10 30 "node1" None [].

Definition client_path (p : string) : string :=
  ("/service/batman/" ++ p)%string.

Definition lease_not_found : exn :=
  ClientError (ClientErrorObj LeaseNotFound None None 404).

(** A gateway on which the lease of the first put has expired: the put
    is refused, a new lease 2002 is granted, the second put succeeds. *)
Definition lost_lease_gateway
  : list event -> string -> pyval -> result pyval :=
  scripted [Raise lease_not_found;
            Ok (PDict [("ID", PStr "2002"); ("TTL", PStr "30")]);
            Ok (PDict [("succeeded", PBool true)])].

Definition election_put (lease : string) : event :=
  EvRpc "/v3/kv/txn"
    (PDict [("compare",
             PList [PDict [("target", PStr "CREATE");
                           ("create_revision", PInt 0);
                           ("key", PStr "L3NlcnZpY2UvYmF0bWFuL2xlYWRlcg==")]]);
            ("success",
             PList [PDict [("request_put",
                            PDict [("key", PStr "L3NlcnZpY2UvYmF0bWFuL2xlYWRlcg==");
                                   ("value", PStr "bm9kZTE=");
                                   ("lease", PStr lease)])]])]).

Definition member_of (index : pyval) (name : string) (session : pyval)
    (value : string) : Member :=
  mkMember index name session (PStr value).

(** The view of a process that has seen itself elected at revision 42. *)
Definition leader1 : Leader :=
  mkLeader (PStr "42") (PStr "1001")
           (mkMember (PStr "40") "node1" (PStr "1001") (PDict [])).

Definition leading : world :=
  mkWorld "/v3" (PStr "1001") 95 10 30 "node1"
    (Some (mkCluster PNone PNone (Some leader1) 0 [leader_member leader1]
                     PNone PNone PNone))
    [].

(** A decoder that inverts [base64_encode] on the texts of the scenario. *)
Definition texts : list string :=
  ["/service/batman/leader"; "/service/batman/members/nodeA";
   "/service/batman/members/nodeB"; "nodeA"; "nodeZ"; "postgres://a";
   "postgres://b"].

Definition decode (v : pyval) : result string :=
  match v with
  | PStr s =>
      match List.find (fun t => String.eqb (base64_encode (Str t)) s) texts with
      | Some t => Ok t
      | None => Raise ValueError
      end
  | _ => Raise TypeError
  end.

(** A key-value pair as the range request returns it. *)
Definition kv (key value revision : string) : pyval :=
  PDict [("key", PStr (base64_encode (Str key)));
         ("create_revision", PStr revision);
         ("mod_revision", PStr revision);
         ("version", PStr "1");
         ("value", PStr (base64_encode (Str value)));
         ("lease", PStr "1001")].

(** The scan of a cluster with members nodeA and nodeB led by [name]. *)
Definition scan (name : string) : pyval :=
  PDict [("kvs",
          PList [kv "/service/batman/leader" name "42";
                 kv "/service/batman/members/nodeA" "postgres://a" "40";
                 kv "/service/batman/members/nodeB" "postgres://b" "41"]);
         ("count", PStr "3")].

(** The snapshot loader of the scenario; the value types keep the raw
    value. *)
Definition load (name : string) : result Cluster :=
  build_cluster "initialize" "config" "history" "optime/leader" "members/"
                "leader" "failover" "sync"
                member_of (fun _ v => v) (fun _ v => v) (fun _ v => v)
                (fun _ v => v) decode "/service/batman/" (scan name).

Definition leader_node (name : string) : pyval :=
  PDict [("key", PStr "/service/batman/leader"); ("mod_revision", PStr "42");
         ("value", PStr name); ("lease", PStr "1001")].

(** A gateway without a leader: every call is refused with NoLeader. *)
Definition no_leader : exn :=
  ClientError (ClientErrorObj NoLeader None None 503).

Definition leaderless_gateway
  : list event -> string -> pyval -> result pyval :=
  fun _ _ _ => Raise no_leader.

(** The leader node of the scan as the index holds it. *)
Definition indexed_leader : pyval :=
  PDict [("key", PStr "/service/batman/leader");
         ("create_revision", PStr "42");
         ("mod_revision", PStr "42");
         ("version", PStr "1");
         ("value", PStr "nodeA");
         ("lease", PStr "1001")].

End Scenario.

(** * Properties *)

(** ** The library functions on known values *)

(** The test vectors of RFC 4648. *)
Example b64encode_vectors :
  List.map (fun t => base64_encode (Str t))
           [""; "f"; "fo"; "foo"; "foob"; "fooba"; "foobar"]
  = [""; "Zg=="; "Zm8="; "Zm9v"; "Zm9vYg=="; "Zm9vYmE="; "Zm9vYmFy"].
Proof. reflexivity. Qed.

Example split_on_dots :
  split_on "." "3.4.13" = ["3"; "4"; "13"] /\ split_on "." "3." = ["3"; ""].
Proof. split; reflexivity. Qed.

Example py_int_values :
  py_int "13" = Ok 13 /\ py_int " -7 " = Ok (-7) /\
  py_int "" = Raise ValueError /\ py_int "not_decided" = Raise ValueError.
Proof. repeat split; reflexivity. Qed.

Example tuple_ltb_values :
  tuple_ltb [3; 2; 9] [3; 3] = true /\ tuple_ltb [3; 3] [3; 3] = false /\
  tuple_ltb [3] [3; 3] = true /\ tuple_ltb [3; 3; 5] [3; 4] = true /\
  tuple_ltb [3; 10] [3; 4] = false.
Proof. repeat split; reflexivity. Qed.

Example basename_values :
  basename "/service/batman/members/nodeA" = "nodeA" /\
  basename "nodeA" = "nodeA" /\ basename "a/" = "".
Proof. repeat split; reflexivity. Qed.

Example strip_values :
  strip "  lease not found " = "lease not found" /\ strip "   " = "".
Proof. split; reflexivity. Qed.

(** The pure categories, as the code table files them. *)
Example errCodeToClientError_entries :
  List.map (fun z => errCodeToClientError !! z) [2; 3; 4; 5; 8; 9; 11; 14]
  = [Some Unknown; Some InvalidArgument; None; Some NotFound; None;
     Some FailedPrecondition; Some OutOfRange; Some Unavailable].
Proof. vm_compute. reflexivity. Qed.

(** A leader key that names a member resolves to the record of that
    member; one that names nobody gets the placeholder. *)
Example load_resolves_leader :
  (c ← Scenario.load "nodeA"; Ok (leader c))
  = Ok (Some (mkLeader (PStr "42") (PStr "1001")
                (mkMember (PStr "40") "nodeA" (PStr "1001")
                          (PStr "postgres://a"))))
  /\
  (c ← Scenario.load "nodeZ"; Ok (leader c))
  = Ok (Some (mkLeader (PStr "42") (PStr "1001")
                (mkMember (PInt (-1)) "nodeZ" PNone (PDict [])))).
Proof. split; vm_compute; reflexivity. Qed.

(** ** The class table *)

(** No chain of base classes is longer than three, so the fuel of [mro] is
    never used up. *)
Lemma mro_fuel_enough (c : errclass) (n : nat) :
  mro_fuel (2 + n) c = mro_fuel 2 c.
Proof. destruct c; try reflexivity; destruct n; reflexivity. Qed.

(** The generator reaches every class below the root, once: its fuel is
    never used up either. *)
Lemma get_subclasses_fuel_enough :
  get_subclasses_fuel 3 Etcd3ClientError = get_subclasses Etcd3ClientError.
Proof. vm_compute. reflexivity. Qed.

Lemma get_subclasses_all (c : errclass) :
  c <> Etcd3ClientError -> c ∈ get_subclasses Etcd3ClientError.
Proof.
  intros Hc. apply (bool_decide_unpack _).
  destruct c; try (vm_compute; reflexivity).
  destruct Hc. reflexivity.
Qed.

Lemma issubclass_LeaseNotFound (c : errclass) :
  issubclass c LeaseNotFound = true <-> c = LeaseNotFound.
Proof.
  split; [| intros ->; vm_compute; reflexivity].
  destruct c; vm_compute; intros H; (reflexivity || discriminate H).
Qed.

Lemma get_subclasses_NoDup : NoDup (get_subclasses Etcd3ClientError).
Proof. apply (bool_decide_unpack _). vm_compute. reflexivity. Qed.

(** ** The lookup tables *)

(** The code table holds exactly the pure categories: a class found under
    a code has that code and no message of its own. *)
Lemma errCodeToClientError_lookup (z : Z) (c : errclass) :
  errCodeToClientError !! z = Some c ->
  class_error c = None /\ class_code c = Some z.
Proof.
  intros H. apply elem_of_map_to_list in H. vm_compute in H.
  repeat (apply elem_of_cons in H as [H | H];
          [inversion H; subst; split; reflexivity |]).
  inversion H.
Qed.

(** A class found under a message is a class declared with that message. *)
Lemma errStringToClientError_lookup (m : string) (c : errclass) :
  errStringToClientError !! m = Some c -> class_error c = Some m.
Proof.
  intros H. apply elem_of_map_to_list in H. vm_compute in H.
  repeat (apply elem_of_cons in H as [H | H];
          [inversion H; subst; reflexivity |]).
  inversion H.
Qed.

(** Conversely every class with a message is found under it: no two
    classes share a message. *)
Lemma errStringToClientError_complete (m : string) (c : errclass) :
  class_error c = Some m -> errStringToClientError !! m = Some c.
Proof.
  destruct c; intros H; vm_compute in H; try discriminate;
    injection H as <-; vm_compute; reflexivity.
Qed.

(** ** Selection of the error class *)

(** Reduction that leaves the lookup tables folded. *)
Ltac reduce :=
  cbn -[errStringToClientError errCodeToClientError GRPCcodeToText lookup].
Ltac reduce_around_calls :=
  cbn -[errStringToClientError errCodeToClientError GRPCcodeToText lookup
        select_class Etcd3ClientError__init__].

Lemma select_class_by_message (m : string) (code : pyval) (c : errclass) :
  errStringToClientError !! m = Some c ->
  select_class (PStr m) code = Ok c.
Proof. intros H. unfold select_class. reduce. rewrite H. reflexivity. Qed.

Lemma select_class_by_code (m : string) (z : Z) (c : errclass) :
  errStringToClientError !! m = None ->
  errCodeToClientError !! z = Some c ->
  select_class (PStr m) (PInt z) = Ok c /\ hasattr_error c = false.
Proof.
  intros Hm Hz. unfold select_class. reduce. rewrite Hm. reduce. rewrite Hz.
  split; [reflexivity |].
  apply errCodeToClientError_lookup in Hz as [He _].
  unfold hasattr_error. rewrite He. reflexivity.
Qed.

Lemma select_class_unknown (m : string) (z : Z) :
  errStringToClientError !! m = None ->
  errCodeToClientError !! z = None ->
  select_class (PStr m) (PInt z) = Ok Unknown.
Proof.
  intros Hm Hz. unfold select_class. reduce. rewrite Hm. reduce. rewrite Hz.
  reflexivity.
Qed.

Lemma raise_for_status_success json_loads (response : HTTPResponse) :
  status response < 400 -> _raise_for_status json_loads response = Ok tt.
Proof.
  intros H. unfold _raise_for_status.
  destruct (Z.ltb_spec (status response) 400); [reflexivity | lia].
Qed.

(** ** Construction after selection *)

(** A class without a message of its own takes its message from the second
    parameter of `__init__`, which must be text. *)
Lemma init_needs_text (cls : errclass) (code error : pyval) (st : Z) :
  hasattr_error cls = false ->
  (forall s, error <> PStr s) ->
  Etcd3ClientError__init__ cls code error st = Raise AttributeError.
Proof.
  intros Hc He. unfold Etcd3ClientError__init__. rewrite Hc.
  destruct error; try reflexivity. destruct (He s). reflexivity.
Qed.

(** Whenever the message of an error response is not one of the fixed
    messages and its code is a number, the decoder ends in
    `AttributeError`: the selected class, a pure category or [Unknown], is
    called with the number where it expects the message. *)
Lemma raise_for_status_unmatched_message json_loads
    (response : HTTPResponse) (d : list (string * pyval)) (m : string) (z : Z) :
  400 <= status response ->
  json_loads (data response) = Some (PDict d) ->
  dict_lookup d "error" = Some (PStr m) ->
  dict_lookup d "code" = Some (PInt z) ->
  errStringToClientError !! m = None ->
  _raise_for_status json_loads response = Raise AttributeError.
Proof.
  intros Hs Hj He Hc Hm. unfold _raise_for_status, extract_error.
  destruct (Z.ltb_spec (status response) 400); [lia |].
  rewrite Hj, He, Hc. reduce_around_calls.
  destruct (errCodeToClientError !! z) as [c |] eqn:Hz.
  - destruct (select_class_by_code m z c Hm Hz) as [-> Hno]. reduce_around_calls.
    rewrite init_needs_text; [reflexivity | assumption | congruence].
  - rewrite (select_class_unknown m z Hm Hz). reduce_around_calls.
    rewrite init_needs_text; [reflexivity | reflexivity | congruence].
Qed.

(** A message-matched class is raised, with its class message; the text of
    its category is looked up under the message and so is never found. *)
Lemma raise_for_status_matched_message json_loads
    (response : HTTPResponse) (d : list (string * pyval)) (m : string) (z : Z)
    (c : errclass) :
  400 <= status response ->
  json_loads (data response) = Some (PDict d) ->
  dict_lookup d "error" = Some (PStr m) ->
  dict_lookup d "code" = Some (PInt z) ->
  errStringToClientError !! m = Some c ->
  _raise_for_status json_loads response =
    Raise (ClientError (ClientErrorObj c None None (status response))).
Proof.
  intros Hs Hj He Hc Hm. unfold _raise_for_status, extract_error.
  destruct (Z.ltb_spec (status response) 400); [lia |].
  rewrite Hj, He, Hc. reduce_around_calls.
  rewrite (select_class_by_message m (PInt z) c Hm). reduce_around_calls.
  unfold Etcd3ClientError__init__, hasattr_error.
  rewrite (errStringToClientError_lookup m c Hm). reflexivity.
Qed.

(** C3.  On the response `500 {error: "etcdserver: unforeseen", code: 2}`
    no class matches the message and the selected kind is [Unknown]; the
    decoder does not raise an [Unknown] error carrying the message, the code
    and the status, it ends in `AttributeError`. *)
Theorem raise_for_status_unknown_kind_lost (text : string) :
  let body := PDict [("error", PStr "etcdserver: unforeseen");
                     ("code", PInt GRPCCode.Unknown)] in
  select_class (PStr "etcdserver: unforeseen") (PInt GRPCCode.Unknown)
    = Ok Unknown /\
  _raise_for_status (fun _ => Some body) (Response 500 text)
    = Raise AttributeError /\
  _raise_for_status (fun _ => Some body) (Response 500 text)
    <> Raise (ClientError
                (ClientErrorObj Unknown (Some "etcdserver: unforeseen")
                                (Some "Unknown") 500)).
Proof.
  intros body. subst body. split; [vm_compute; reflexivity |].
  assert (E : _raise_for_status
                (fun _ => Some (PDict [("error", PStr "etcdserver: unforeseen");
                                       ("code", PInt GRPCCode.Unknown)]))
                (Response 500 text) = Raise AttributeError).
  { eapply raise_for_status_unmatched_message;
      [simpl; lia | reflexivity | reflexivity | reflexivity
      | vm_compute; reflexivity]. }
  split; [exact E | rewrite E; discriminate].
Qed.

(** ** Retryable errors *)

(** Every other exception is let through by the retry primitive at once,
    whatever the budget. *)
Lemma Retry_terminal {A} (budget : nat) (operation : M A) (w w' : world) (e : exn) :
  operation w = (Raise e, w') ->
  is_retryable e = false ->
  Retry budget operation w = (Raise e, w').
Proof. intros H He. destruct budget; simpl; rewrite H, He; reflexivity. Qed.

Lemma Retry_returns {A} (budget : nat) (operation : M A) (w w' : world) (a : A) :
  operation w = (Ok a, w') -> Retry budget operation w = (Ok a, w').
Proof. intros H. destruct budget; simpl; rewrite H; reflexivity. Qed.

(** C4.  An error of the taxonomy is retried exactly when its category,
    the `code` its class carries, is DeadlineExceeded or Unavailable; an
    error of any other category ends the retried operation at once. *)
Theorem retryable_iff_deadline_or_unavailable (o : Etcd3ClientError_obj) :
  (is_retryable (ClientError o) = true <->
   code_of o = Some GRPCCode.DeadlineExceeded \/
   code_of o = Some GRPCCode.Unavailable)
  /\
  (forall (A : Type) (operation : M A) (budget : nat) (w w' : world),
      code_of o <> Some GRPCCode.DeadlineExceeded ->
      code_of o <> Some GRPCCode.Unavailable ->
      operation w = (Raise (ClientError o), w') ->
      Retry budget operation w = (Raise (ClientError o), w')).
Proof.
  assert (H : is_retryable (ClientError o) = true <->
              code_of o = Some GRPCCode.DeadlineExceeded \/
              code_of o = Some GRPCCode.Unavailable).
  { destruct o as [c e t s]. unfold is_retryable, code_of. simpl.
    destruct c; vm_compute; split;
      solve [ intros H; discriminate H
            | intros [H | H]; discriminate H
            | intros _; reflexivity
            | intros _; left; reflexivity
            | intros _; right; reflexivity ]. }
  split; [exact H |].
  intros A operation budget w w' Hd Hu Hop.
  apply Retry_terminal; [exact Hop |].
  destruct (is_retryable (ClientError o)); [| reflexivity].
  destruct (proj1 H eq_refl); contradiction.
Qed.

Lemma retryable_iff_deadline_or_unavailable_witness :
  Retry 3 (fun w => (Raise Scenario.lease_not_found, w) : result pyval * world)
        Scenario.node1
  = (Raise Scenario.lease_not_found, Scenario.node1).
Proof.
  exact (proj2 (retryable_iff_deadline_or_unavailable
                  (ClientErrorObj LeaseNotFound None None 404))
               pyval _ 3%nat Scenario.node1 Scenario.node1
               ltac:(vm_compute; discriminate) ltac:(vm_compute; discriminate)
               eq_refl).
Defined.

(** ** The end of a prefix range *)

Lemma insert_last {A} (pre : list A) (b b' : A) :
  <[Nat.pred (List.length (pre ++ [b])) := b']> (pre ++ [b]) = pre ++ [b'].
Proof.
  rewrite length_app. simpl. rewrite Nat.add_1_r. simpl.
  rewrite insert_app_r_alt by lia. rewrite Nat.sub_diag. reflexivity.
Qed.

(** C2, as the code has it.  On a key whose last byte is 0xFF the store of
    the incremented byte is refused and the call raises `ValueError`; on a
    key whose last byte is smaller the result is the key with that byte one
    higher and the bytes before it unchanged. *)
Theorem increment_last_byte_spec (key : pytext) (pre : list byte) (b : byte) :
  to_bytes key = pre ++ [b] ->
  (b = xff -> increment_last_byte key = Raise ValueError) /\
  ((Byte.to_N b < 255)%N ->
   exists b', Byte.to_N b' = (Byte.to_N b + 1)%N /\
              increment_last_byte key = Ok (pre ++ [b'])).
Proof.
  intros Hkey. unfold increment_last_byte. rewrite Hkey, last_snoc. split.
  - intros ->. reflexivity.
  - intros Hlt. destruct (Byte.of_N (Byte.to_N b + 1)) as [b' |] eqn:E.
    + exists b'. split; [apply Byte.to_of_N, E |].
      rewrite insert_last. reflexivity.
    + apply Byte.of_N_None_iff in E. lia.
Qed.

Lemma increment_last_byte_spec_witness :
  increment_last_byte (Bytes [x61; xff]) = Raise ValueError /\
  exists b', Byte.to_N b' = 48%N /\
             increment_last_byte (Str "/service/")
               = Ok (list_byte_of_string "/service" ++ [b']).
Proof.
  split.
  - exact (proj1 (increment_last_byte_spec (Bytes [x61; xff]) [x61] xff
                    eq_refl)
                 eq_refl).
  - exact (proj2 (increment_last_byte_spec (Str "/service/")
                    (list_byte_of_string "/service") "/"%byte eq_refl)
                 ltac:(vm_compute; reflexivity)).
Defined.

(** The byte 0xFF is not wrapped to zero. *)
Lemma increment_last_byte_no_wrap :
  ~ (forall (key : pytext) (pre : list byte),
        to_bytes key = pre ++ [xff] ->
        increment_last_byte key = Ok (pre ++ [x00])).
Proof.
  intros H. specialize (H (Bytes [x61; xff]) [x61] eq_refl).
  vm_compute in H. discriminate H.
Qed.

Lemma increment_last_byte_empty (key : pytext) :
  to_bytes key = [] -> increment_last_byte key = Raise IndexError.
Proof. intros H. unfold increment_last_byte. rewrite H. reflexivity. Qed.

(** ** Put *)

(** Runs the monadic plumbing of a method body. *)
Ltac run :=
  unfold mbind, mret, M_bind, M_ret, call_rpc, now, get, modify, lift, raise;
  cbn.

(** The same, down to the fields of the state, in the goal and in the
    hypotheses about the collaborators. *)
Ltac run_states :=
  unfold mbind, mret, M_bind, M_ret, call_rpc, now, get, modify, lift, raise,
         emit, set_lease, set_last_lease_refresh, set_version_prefix in *;
  cbn in *.

Section Put.

Variable api_execute : list event -> string -> pyval -> result pyval.
Variables key value : pytext.
Variable lease : pyval.
Variable w : world.

(** The put request: key and value in base64, the lease when there is
    one. *)
Let fields : list (string * pyval) :=
  [("key", PStr (base64_encode key)); ("value", PStr (base64_encode value))]
  ++ (if truthy lease then [("lease", lease)] else []).

(** The transaction guarded by one comparison on the key. *)
Let txn (target field : string) (revision : pyval) : pyval :=
  PDict [("compare",
          PList [PDict [("target", PStr target); (field, revision);
                        ("key", PStr (base64_encode key))]]);
         ("success", PList [PDict [("request_put", PDict fields)]])].

Let path (method : string) : string := (version_prefix w ++ method)%string.

Lemma put_with_create_revision (create_revision mod_revision : pyval) :
  is_None create_revision = false ->
  put api_execute key value lease create_revision mod_revision w =
    (r ← api_execute (trace w) (path "/kv/txn")
           (txn "CREATE" "create_revision" create_revision);
     py_get r "succeeded",
     emit (EvRpc (path "/kv/txn")
                 (txn "CREATE" "create_revision" create_revision)) w).
Proof.
  intros H. unfold put, txn, fields, path. rewrite H.
  destruct (truthy lease); run;
    match goal with
    | |- context [api_execute ?t ?p ?f] => destruct (api_execute t p f)
    end; reflexivity.
Qed.

Lemma put_with_mod_revision (mod_revision : pyval) :
  is_None mod_revision = false ->
  put api_execute key value lease PNone mod_revision w =
    (r ← api_execute (trace w) (path "/kv/txn")
           (txn "MOD" "mod_revision" mod_revision);
     py_get r "succeeded",
     emit (EvRpc (path "/kv/txn") (txn "MOD" "mod_revision" mod_revision)) w).
Proof.
  intros H. unfold put, txn, fields, path. rewrite H.
  destruct (truthy lease); run;
    match goal with
    | |- context [api_execute ?t ?p ?f] => destruct (api_execute t p f)
    end; reflexivity.
Qed.

Lemma put_plain :
  put api_execute key value lease PNone PNone w =
    (api_execute (trace w) (path "/kv/put") (PDict fields),
     emit (EvRpc (path "/kv/put") (PDict fields)) w).
Proof. unfold put, fields, path. destruct (truthy lease); reflexivity. Qed.

(** C1.  With a create-revision the client posts one `/kv/txn` whose only
    comparison is on the key's create-revision and whose success branch is
    the put, and returns the `succeeded` entry of the answer; with no
    revision at all it posts `/kv/put` and returns the answer as it is. *)
Theorem put_create_revision_or_plain (create_revision mod_revision : pyval) :
  (is_None create_revision = false ->
   put api_execute key value lease create_revision mod_revision w =
     (r ← api_execute (trace w) (path "/kv/txn")
            (txn "CREATE" "create_revision" create_revision);
      py_get r "succeeded",
      emit (EvRpc (path "/kv/txn")
                  (txn "CREATE" "create_revision" create_revision)) w))
  /\
  put api_execute key value lease PNone PNone w =
    (api_execute (trace w) (path "/kv/put") (PDict fields),
     emit (EvRpc (path "/kv/put") (PDict fields)) w).
Proof. split; [apply put_with_create_revision | apply put_plain]. Qed.

(** C10.  When both revisions are given the transaction compares the
    create-revision only: it is the transaction of the call without a
    mod-revision, whatever the mod-revision is. *)
Theorem put_create_revision_takes_precedence
    (create_revision mod_revision : pyval) :
  is_None create_revision = false ->
  is_None mod_revision = false ->
  put api_execute key value lease create_revision mod_revision w =
    put api_execute key value lease create_revision PNone w
  /\
  trace (put api_execute key value lease create_revision mod_revision w).2 =
    trace w ++ [EvRpc (path "/kv/txn")
                      (txn "CREATE" "create_revision" create_revision)].
Proof.
  intros Hc Hm.
  rewrite (put_with_create_revision create_revision mod_revision Hc).
  rewrite (put_with_create_revision create_revision PNone Hc).
  split; reflexivity.
Qed.

End Put.

Lemma put_create_revision_or_plain_witness :
  put (Scenario.scripted [Ok (PDict [("succeeded", PBool true)])])
      (Str "/service/batman/leader") (Str "node1") (PStr "1001")
      (PInt 0) PNone Scenario.node1
  = (Ok (PBool true),
     emit (EvRpc "/v3/kv/txn"
             (PDict [("compare",
                      PList [PDict [("target", PStr "CREATE");
                                    ("create_revision", PInt 0);
                                    ("key", PStr "L3NlcnZpY2UvYmF0bWFuL2xlYWRlcg==")]]);
                     ("success",
                      PList [PDict [("request_put",
                                     PDict [("key", PStr "L3NlcnZpY2UvYmF0bWFuL2xlYWRlcg==");
                                            ("value", PStr "bm9kZTE=");
                                            ("lease", PStr "1001")])]])]))
          Scenario.node1).
Proof.
  exact (proj1 (put_create_revision_or_plain
                  (Scenario.scripted [Ok (PDict [("succeeded", PBool true)])])
                  (Str "/service/batman/leader") (Str "node1") (PStr "1001")
                  Scenario.node1 (PInt 0) PNone)
               eq_refl).
Defined.

Lemma put_create_revision_takes_precedence_witness :
  trace (put (Scenario.scripted [Ok (PDict [])])
             (Str "/service/batman/leader") (Str "node1") PNone
             (PInt 0) (PInt 7) Scenario.node1).2
  = [EvRpc "/v3/kv/txn"
       (PDict [("compare",
                PList [PDict [("target", PStr "CREATE");
                              ("create_revision", PInt 0);
                              ("key", PStr "L3NlcnZpY2UvYmF0bWFuL2xlYWRlcg==")]]);
               ("success",
                PList [PDict [("request_put",
                               PDict [("key", PStr "L3NlcnZpY2UvYmF0bWFuL2xlYWRlcg==");
                                      ("value", PStr "bm9kZTE=")])]])])].
Proof.
  exact (proj2 (put_create_revision_takes_precedence
                  (Scenario.scripted [Ok (PDict [])])
                  (Str "/service/batman/leader") (Str "node1") PNone
                  Scenario.node1 (PInt 0) (PInt 7) eq_refl eq_refl)).
Defined.

(** ** Version negotiation *)

Lemma tuple_ltb_nil_r (a : list Z) : tuple_ltb a [] = false.
Proof. destruct a; reflexivity. Qed.

(** Against a pair `(3, n)` only the first two components of a version
    count. *)
Lemma tuple_ltb_minor (major minor n : Z) (rest : list Z) :
  tuple_ltb (major :: minor :: rest) [3; n] = true <->
  major < 3 \/ major = 3 /\ minor < n.
Proof.
  simpl. rewrite tuple_ltb_nil_r.
  destruct (Z.ltb_spec major 3), (Z.eqb_spec major 3),
           (Z.ltb_spec minor n), (Z.eqb_spec minor n);
    split; intros; try discriminate; try reflexivity; lia.
Qed.

Section VersionNegotiation.

Variable request_version : list event -> result HTTPResponse.
Variable json_loads : string -> option pyval.
Variable w : world.
Variable response : HTTPResponse.
Variable body : pyval.
Variable text : string.

(** The client has not settled on the stable prefix, and the version
    endpoint answers with a body that reports [text] as the cluster
    version. *)
Hypothesis unsettled : version_prefix w <> "/v3".
Hypothesis answered : request_version (trace w) = Ok response.
Hypothesis success : status response < 400.
Hypothesis parsed : json_loads (data response) = Some body.
Hypothesis reported : py_getitem body "etcdcluster" = Ok (PStr text).

Let negotiated (prefix : string) : result unit * world :=
  (Ok tt, set_version_prefix prefix (emit EvGetVersion w)).

Lemma ensure_version_prefix_run (version : list Z) :
  parse_version text = Ok version ->
  _ensure_version_prefix request_version json_loads w =
    negotiated (if tuple_ltb version [3; 3] then "/v3alpha"
                else if tuple_ltb version [3; 4] then "/v3beta"
                else "/v3").
Proof.
  intros Hv. unfold _ensure_version_prefix, negotiated. run.
  apply String.eqb_neq in unsettled. rewrite unsettled. cbn.
  rewrite answered. unfold _handle_server_response.
  rewrite (raise_for_status_success json_loads response success).
  cbn. rewrite parsed, reported. cbn. rewrite Hv.
  destruct (tuple_ltb version [3; 3]); [reflexivity |].
  destruct (tuple_ltb version [3; 4]); reflexivity.
Qed.

(** C5.  A version below 3.3 selects the alpha prefix, a version 3.3.x
    the beta prefix, a version from 3.4 on the stable prefix; so do
    "3.2.9", "3.3.5" and "3.5.0" in this order. *)
Theorem version_negotiation :
  (forall major minor rest,
      parse_version text = Ok (major :: minor :: rest) ->
      (major < 3 \/ major = 3 /\ minor < 3 ->
       _ensure_version_prefix request_version json_loads w
         = negotiated "/v3alpha") /\
      (major = 3 /\ minor = 3 ->
       _ensure_version_prefix request_version json_loads w
         = negotiated "/v3beta") /\
      (major > 3 \/ major = 3 /\ minor >= 4 ->
       _ensure_version_prefix request_version json_loads w
         = negotiated "/v3")) /\
  (text = "3.2.9" ->
   _ensure_version_prefix request_version json_loads w
     = negotiated "/v3alpha") /\
  (text = "3.3.5" ->
   _ensure_version_prefix request_version json_loads w
     = negotiated "/v3beta") /\
  (text = "3.5.0" ->
   _ensure_version_prefix request_version json_loads w = negotiated "/v3").
Proof.
  split; [| repeat split; intros E;
            rewrite (ensure_version_prefix_run _
                       ltac:(rewrite E; vm_compute; reflexivity));
            reflexivity].
  intros major minor rest Hv.
  rewrite (ensure_version_prefix_run _ Hv).
  pose proof (tuple_ltb_minor major minor 3 rest) as H3.
  pose proof (tuple_ltb_minor major minor 4 rest) as H4.
  destruct (tuple_ltb (major :: minor :: rest) [3; 3]),
           (tuple_ltb (major :: minor :: rest) [3; 4]);
    repeat split; intros Hc; try reflexivity; exfalso;
    repeat match goal with
           | H : _ <-> _ |- _ => destruct H
           end;
    try (assert (true = true) by reflexivity);
    intuition (try discriminate; try lia).
Qed.

End VersionNegotiation.

Lemma version_negotiation_witness :
  _ensure_version_prefix (Scenario.version_answer "3.2.9")
                         Scenario.version_body Scenario.fresh_client
  = (Ok tt, set_version_prefix "/v3alpha"
              (emit EvGetVersion Scenario.fresh_client)).
Proof.
  exact (proj1 (proj2
           (version_negotiation
              (Scenario.version_answer "3.2.9") Scenario.version_body
              Scenario.fresh_client (Response 200 "3.2.9")
              (PDict [("etcdserver", PStr "3.2.9");
                      ("etcdcluster", PStr "3.2.9")])
              "3.2.9"
              ltac:(simpl; discriminate) eq_refl ltac:(simpl; lia)
              eq_refl eq_refl))
           eq_refl).
Defined.

(** Once the stable prefix is chosen the version is not asked for again. *)
Lemma ensure_version_prefix_settled request_version json_loads (w : world) :
  version_prefix w = "/v3" ->
  _ensure_version_prefix request_version json_loads w = (Ok tt, w).
Proof.
  intros H. unfold _ensure_version_prefix. run. rewrite H. reflexivity.
Qed.

(** ** Lease refresh *)

Section LeaseRefresh.

Variable api_execute : list event -> string -> pyval -> result pyval.
Variable time_time : list event -> Z.
Variable w : world.

Let keepalive : event :=
  EvRpc (version_prefix w ++ "/lease/keepalive")%string
        (PDict [("ID", _lease w)]).
Let grant : event :=
  EvRpc (version_prefix w ++ "/lease/grant")%string
        (PDict [("TTL", PInt (_ttl w))]).

(** The answer of the gateway to a POST made in state [w']. *)
Let answer (ev : event) (w' : world) : result pyval :=
  match ev with
  | EvRpc path fields => api_execute (trace w') path fields
  | _ => Raise (OtherError "not a POST")
  end.

(** The last refresh is less than one loop wait old. *)
Let fresh : Prop :=
  time_time (trace w) < _last_lease_refresh w + _loop_wait w.

(** The end of a refresh that went through: the clock is read and the
    reading stored. *)
Let stamped (w' : world) : world :=
  set_last_lease_refresh (time_time (trace w')) (emit EvTime w').

Ltac clock_case :=
  match goal with
  | |- context [?a <? ?b] =>
      destruct (Z.ltb_spec a b); [| ]; try lia; cbn
  end.

Lemma refresh_rate_limited :
  truthy (_lease w) = true -> fresh ->
  _do_refresh_lease api_execute time_time w = (Ok false, emit EvTime w).
Proof.
  intros Hl Hf. unfold _do_refresh_lease, fresh in *. run_states.
  rewrite Hl. cbn. clock_case. reflexivity.
Qed.

Lemma refresh_kept_alive (r ttl : pyval) :
  truthy (_lease w) = true -> ~ fresh ->
  answer keepalive (emit EvTime w) = Ok r ->
  (res ← py_get_default r "result" (PDict []); py_get res "TTL") = Ok ttl ->
  truthy ttl = true ->
  _do_refresh_lease api_execute time_time w =
    (Ok false, stamped (emit keepalive (emit EvTime w))).
Proof.
  intros Hl Hf Hr Httl Ht.
  unfold _do_refresh_lease, lease_keepalive, fresh, answer, keepalive,
         stamped in *.
  run_states. rewrite Hl. cbn. clock_case.
  rewrite Hr. cbn. rewrite Httl. cbn. rewrite Ht. cbn. rewrite Hl.
  reflexivity.
Qed.

Lemma refresh_lease_gone (r ttl g ID : pyval) :
  truthy (_lease w) = true -> ~ fresh ->
  answer keepalive (emit EvTime w) = Ok r ->
  (res ← py_get_default r "result" (PDict []); py_get res "TTL") = Ok ttl ->
  truthy ttl = false ->
  answer grant (emit keepalive (emit EvTime w)) = Ok g ->
  py_getitem g "ID" = Ok ID ->
  _do_refresh_lease api_execute time_time w =
    (Ok true,
     stamped (set_lease ID
                (emit grant (emit keepalive (emit EvTime w))))).
Proof.
  intros Hl Hf Hr Httl Ht Hg HID.
  unfold _do_refresh_lease, lease_keepalive, lease_grant, fresh, answer,
         keepalive, grant, stamped in *.
  run_states. rewrite Hl. cbn. clock_case.
  rewrite Hr. cbn. rewrite Httl. cbn. rewrite Ht. cbn.
  rewrite Hg. cbn. rewrite HID. reflexivity.
Qed.

Lemma refresh_without_lease (g ID : pyval) :
  truthy (_lease w) = false ->
  answer grant w = Ok g ->
  py_getitem g "ID" = Ok ID ->
  _do_refresh_lease api_execute time_time w =
    (Ok true, stamped (set_lease ID (emit grant w))).
Proof.
  intros Hl Hg HID.
  unfold _do_refresh_lease, lease_grant, answer, grant, stamped in *.
  run_states. rewrite Hl. cbn. rewrite Hl. cbn. rewrite Hg. cbn.
  rewrite HID. reflexivity.
Qed.

(** C6.  With a lease and a fresh enough refresh the call changes nothing
    and returns false.  Otherwise a held lease is kept alive; if the
    keepalive reports no TTL the lease is dropped; with no lease left a
    new one is granted for the configured TTL; the time is recorded on
    each of these ways out; and the value returned is true on exactly the
    ways on which a lease was granted. *)
Theorem do_refresh_lease_spec :
  (truthy (_lease w) = true -> fresh ->
   _do_refresh_lease api_execute time_time w = (Ok false, emit EvTime w))
  /\
  (forall r ttl,
      truthy (_lease w) = true -> ~ fresh ->
      answer keepalive (emit EvTime w) = Ok r ->
      (res ← py_get_default r "result" (PDict []); py_get res "TTL")
        = Ok ttl ->
      (truthy ttl = true ->
       _do_refresh_lease api_execute time_time w =
         (Ok false, stamped (emit keepalive (emit EvTime w))))
      /\
      (truthy ttl = false ->
       forall g ID,
         answer grant (emit keepalive (emit EvTime w)) = Ok g ->
         py_getitem g "ID" = Ok ID ->
         _do_refresh_lease api_execute time_time w =
           (Ok true,
            stamped (set_lease ID
                       (emit grant (emit keepalive (emit EvTime w)))))))
  /\
  (forall g ID,
      truthy (_lease w) = false ->
      answer grant w = Ok g ->
      py_getitem g "ID" = Ok ID ->
      _do_refresh_lease api_execute time_time w =
        (Ok true, stamped (set_lease ID (emit grant w)))).
Proof.
  split; [exact refresh_rate_limited |].
  split.
  - intros r ttl Hl Hf Hr Httl. split.
    + intros Ht. exact (refresh_kept_alive r ttl Hl Hf Hr Httl Ht).
    + intros Ht g ID Hg HID.
      exact (refresh_lease_gone r ttl g ID Hl Hf Hr Httl Ht Hg HID).
  - intros g ID Hl Hg HID. exact (refresh_without_lease g ID Hl Hg HID).
Qed.

End LeaseRefresh.

Lemma do_refresh_lease_spec_witness :
  _do_refresh_lease
    (Scenario.scripted [Ok (PDict []);
                        Ok (PDict [("ID", PStr "2002"); ("TTL", PStr "30")])])
    Scenario.clock Scenario.overdue
  = (Ok true,
     mkWorld "/v3" (PStr "2002") 103 10 30 "node1" None
       [EvTime;
        EvRpc "/v3/lease/keepalive" (PDict [("ID", PStr "1001")]);
        EvRpc "/v3/lease/grant" (PDict [("TTL", PInt 30)]);
        EvTime]).
Proof.
  exact (proj2
           (proj1 (proj2
              (do_refresh_lease_spec
                 (Scenario.scripted
                    [Ok (PDict []);
                     Ok (PDict [("ID", PStr "2002"); ("TTL", PStr "30")])])
                 Scenario.clock Scenario.overdue))
              (PDict []) PNone eq_refl ltac:(vm_compute; discriminate)
              eq_refl eq_refl)
           eq_refl
           (PDict [("ID", PStr "2002"); ("TTL", PStr "30")]) (PStr "2002")
           eq_refl eq_refl).
Defined.

(** ** The retry primitive as a proof rule *)

(** If every failed attempt of an operation keeps a property of the state
    and every successful one establishes a property of its value, so does
    the retried operation. *)
Lemma Retry_rule {A} (P : world -> Prop) (Q : A -> world -> Prop)
    (operation : M A) :
  (forall w, P w ->
             match operation w with
             | (Ok a, w') => Q a w'
             | (Raise _, w') => P w'
             end) ->
  forall budget w,
    P w ->
    match Retry budget operation w with
    | (Ok a, w') => Q a w'
    | (Raise _, w') => P w'
    end.
Proof.
  intros Hop budget. induction budget as [| budget IH]; intros w Hw; simpl;
    specialize (Hop w Hw); destruct (operation w) as [[a | e] w'];
    try exact Hop; destruct (is_retryable e); try exact Hop.
  apply IH, Hop.
Qed.

(** What one attempt returns, the retried and wrapped refresh returns. *)
Lemma refresh_lease_returns api_execute time_time retry_budget
    (w w' : world) (b : bool) :
  _do_refresh_lease api_execute time_time w = (Ok b, w') ->
  refresh_lease api_execute time_time retry_budget w = (Ok b, w').
Proof.
  intros H. unfold refresh_lease, try_except, retry.
  rewrite (Retry_returns retry_budget _ w w' b H). reflexivity.
Qed.

(** Without a lease, an attempt to refresh either grants one and returns
    true or fails and leaves the state without a lease. *)
Lemma do_refresh_lease_without_lease api_execute time_time (w : world) :
  truthy (_lease w) = false ->
  match _do_refresh_lease api_execute time_time w with
  | (Ok b, _) => b = true
  | (Raise _, w') => truthy (_lease w') = false
  end.
Proof.
  intros Hl. unfold _do_refresh_lease, lease_grant. run_states.
  rewrite Hl. cbn. rewrite Hl. cbn.
  destruct (api_execute _ _ _) as [g | e]; cbn; [| exact Hl].
  destruct (py_getitem g "ID"); cbn; [reflexivity | exact Hl].
Qed.

Lemma refresh_lease_without_lease api_execute time_time retry_budget
    (w w' : world) (r : bool) :
  truthy (_lease w) = false ->
  refresh_lease api_execute time_time retry_budget w = (Ok r, w') ->
  r = true.
Proof.
  intros Hl H. unfold refresh_lease, try_except, retry in H.
  pose proof (Retry_rule (fun w => truthy (_lease w) = false)
                         (fun b _ => b = true)
                         (_do_refresh_lease api_execute time_time)
                         (do_refresh_lease_without_lease api_execute time_time)
                         retry_budget w Hl) as HR.
  destruct (Retry retry_budget (_do_refresh_lease api_execute time_time) w)
    as [[b | e] w''].
  - injection H as -> _. exact HR.
  - destruct e; discriminate H.
Qed.

(** ** Leader election *)

Section Election.

Variable api_execute : list event -> string -> pyval -> result pyval.
Variable time_time : list event -> Z.
Variable retry_budget : nat.
Variable leader_path : string.

(** The compare-and-swap put of the election, retried on transient
    failures: `self.retry(self._client.put, self.leader_path, self._name,
    lease, 0)`. *)
Let cas_put (name : string) (lease : pyval) : M pyval :=
  retry retry_budget
    (put api_execute (Str leader_path) (Str name) lease (PInt 0) PNone).

Let refresh : M bool := refresh_lease api_execute time_time retry_budget.

Let attempt (permanent : bool) : M pyval :=
  attempt_to_acquire_leader api_execute time_time retry_budget leader_path
                            permanent.

(** The lease the put is bound to in state [w]. *)
Let bound_lease (permanent : bool) (w : world) : pyval :=
  if permanent then PNone else _lease w.

(** C7.  [w0] is the state after the lease was made sure of.  If the put
    made there fails with LeaseNotFound in state [w1], the lease is
    forgotten and refreshed from there; if that refresh returns, in state
    [w2], it has granted a new lease, and the whole call is one more put
    made in [w2] under the lease held there: it returns what that put
    returns, a false flag included, and raises what that put raises. *)
Theorem attempt_recovers_from_lost_lease
    (permanent : bool) (w w0 w1 w2 : world) (r0 r : bool)
    (o : Etcd3ClientError_obj) :
  (if negb (truthy (_lease w)) && negb permanent then refresh w
   else (Ok false, w)) = (Ok r0, w0) ->
  cas_put (_name w0) (bound_lease permanent w0) w0
    = (Raise (ClientError o), w1) ->
  err_class o = LeaseNotFound ->
  refresh (set_lease PNone w1) = (Ok r, w2) ->
  r = true /\
  attempt permanent w = cas_put (_name w0) (bound_lease permanent w2) w2 /\
  (forall flag w3,
      cas_put (_name w0) (bound_lease permanent w2) w2 = (Ok flag, w3) ->
      attempt permanent w = (Ok flag, w3)).
Proof.
  intros Hpre Hput Hcls Hrefresh.
  assert (Hr : r = true).
  { eapply refresh_lease_without_lease; [| exact Hrefresh]. reflexivity. }
  assert (Hrun : attempt permanent w
                 = cas_put (_name w0) (bound_lease permanent w2) w2).
  { unfold attempt, attempt_to_acquire_leader,
           _do_attempt_to_acquire_leader, try_except, own_lease, log.
    unfold cas_put, bound_lease, refresh in *.
    unfold mbind, mret, M_bind, M_ret, get, modify.
    cbn -[put issubclass retry refresh_lease].
    destruct (negb (truthy (_lease w)) && negb permanent);
      [rewrite Hpre | injection Hpre as _ ->];
      (destruct permanent; cbn -[put issubclass retry refresh_lease];
       rewrite Hput, Hcls, (proj2 (issubclass_LeaseNotFound _) eq_refl);
       cbn -[put retry refresh_lease];
       rewrite Hrefresh;
       match goal with
       | |- context [retry ?b ?op ?s] =>
           destruct (retry b op s) as [[v | e] w3]
       end; try reflexivity; destruct (truthy v); reflexivity). }
  split; [exact Hr |]. split; [exact Hrun |].
  intros flag w3 H. rewrite Hrun. exact H.
Qed.

End Election.

Lemma attempt_recovers_from_lost_lease_witness :
  attempt_to_acquire_leader Scenario.lost_lease_gateway Scenario.clock 2
                            "/service/batman/leader" false Scenario.node1
  = (Ok (PBool true),
     mkWorld "/v3" (PStr "2002") 102 10 30 "node1" None
       [Scenario.election_put "1001";
        EvRpc "/v3/lease/grant" (PDict [("TTL", PInt 30)]);
        EvTime;
        Scenario.election_put "2002"]).
Proof.
  exact (proj2 (proj2
           (attempt_recovers_from_lost_lease
              Scenario.lost_lease_gateway Scenario.clock 2
              "/service/batman/leader" false
              Scenario.node1 Scenario.node1
              (emit (Scenario.election_put "1001") Scenario.node1)
              (mkWorld "/v3" (PStr "2002") 102 10 30 "node1" None
                 [Scenario.election_put "1001";
                  EvRpc "/v3/lease/grant" (PDict [("TTL", PInt 30)]);
                  EvTime])
              false true
              (ClientErrorObj LeaseNotFound None None 404)
              eq_refl eq_refl eq_refl eq_refl))
           (PBool true) _ eq_refl).
Defined.


(** ** Release of leadership *)

Section Release.

Variable api_execute : list event -> string -> pyval -> result pyval.
Variable leader_path : string.
Variable w : world.

Let key : pyval := PStr (base64_encode (Str leader_path)).

(** The delete of the leader key, guarded by a comparison of its
    mod-revision. *)
Let guarded_delete (revision : pyval) : event :=
  EvRpc (version_prefix w ++ "/kv/txn")%string
    (PDict [("compare",
             PList [PDict [("target", PStr "MOD");
                           ("mod_revision", revision); ("key", key)]]);
            ("success",
             PList [PDict [("request_delete_range", PDict [("key", key)])]])]).

Let answer (ev : event) : result pyval :=
  match ev with
  | EvRpc path fields => api_execute (trace w) path fields
  | _ => Raise (OtherError "not a POST")
  end.

(** The view names this process as the leader. *)
Let leads (l : Leader) : Prop :=
  exists c, cluster w = Some c /\ leader c = Some l /\
            Leader_name l = _name w.

Lemma deleterange_guarded (revision : pyval) :
  is_None revision = false ->
  deleterange api_execute (Str leader_path) None revision w
  = (r ← answer (guarded_delete revision); py_get r "succeeded",
     emit (guarded_delete revision) w).
Proof.
  intros H. unfold deleterange, answer, guarded_delete, key. rewrite H.
  run. destruct (api_execute _ _ _); reflexivity.
Qed.

(** C8.  When the view names this process as the leader, the call is the
    delete of the leader key for the revision of the leader record, which
    is one transaction guarded by that revision; in every other state
    nothing is sent. *)
Theorem delete_leader_spec :
  (forall l,
      leads l ->
      delete_leader api_execute leader_path w
      = deleterange api_execute (Str leader_path) None (leader_index l) w
      /\
      (is_None (leader_index l) = false ->
       delete_leader api_execute leader_path w
       = (r ← answer (guarded_delete (leader_index l));
          py_get r "succeeded",
          emit (guarded_delete (leader_index l)) w)))
  /\
  ((forall l, ~ leads l) ->
   delete_leader api_execute leader_path w = (Ok PNone, w)).
Proof.
  split.
  - intros l (c & Hc & Hl & Hn).
    assert (E : delete_leader api_execute leader_path w
                = deleterange api_execute (Str leader_path) None
                              (leader_index l) w).
    { unfold delete_leader. run. rewrite Hc, Hl.
      apply String.eqb_eq in Hn. rewrite Hn. reflexivity. }
    split; [exact E |].
    intros Hrev. rewrite E. apply deleterange_guarded, Hrev.
  - intros Hno. unfold delete_leader. run.
    destruct (cluster w) as [c |] eqn:Hc; [| reflexivity].
    destruct (leader c) as [l |] eqn:Hl; [| reflexivity].
    destruct (String.eqb_spec (Leader_name l) (_name w)) as [Hn | Hn];
      [| reflexivity].
    destruct (Hno l). exists c. auto.
Qed.

End Release.

Lemma delete_leader_spec_witness :
  delete_leader (Scenario.scripted [Ok (PDict [("succeeded", PBool true)])])
                "/service/batman/leader" Scenario.leading
  = (Ok (PBool true),
     emit (EvRpc "/v3/kv/txn"
             (PDict [("compare",
                      PList [PDict [("target", PStr "MOD");
                                    ("mod_revision", PStr "42");
                                    ("key", PStr "L3NlcnZpY2UvYmF0bWFuL2xlYWRlcg==")]]);
                     ("success",
                      PList [PDict [("request_delete_range",
                                     PDict [("key", PStr "L3NlcnZpY2UvYmF0bWFuL2xlYWRlcg==")])]])]))
          Scenario.leading).
Proof.
  exact (proj2
           (proj1 (delete_leader_spec
                     (Scenario.scripted [Ok (PDict [("succeeded", PBool true)])])
                     "/service/batman/leader" Scenario.leading)
                  Scenario.leader1
                  (ex_intro _ _ (conj eq_refl (conj eq_refl eq_refl))))
           eq_refl).
Defined.

(** ** Resolution of the leader's member *)

Lemma hd_filter_unique {A} (f : A -> bool) (d m : A) (l : list A) :
  In m l -> f m = true ->
  (forall m', In m' l -> f m' = true -> m' = m) ->
  hd d (List.filter f l) = m.
Proof.
  induction l as [| x l IH]; intros Hin Hm Huniq; [destruct Hin |].
  simpl. destruct (f x) eqn:Hx.
  - simpl. apply Huniq; [left; reflexivity | exact Hx].
  - destruct Hin as [-> | Hin]; [congruence |].
    apply IH; [exact Hin | exact Hm |].
    intros m' Hm' Hf. apply Huniq; [right; exact Hm' | exact Hf].
Qed.

Lemma filter_none {A} (f : A -> bool) (l : list A) :
  (forall m, In m l -> f m = false) -> List.filter f l = [].
Proof.
  induction l as [| x l IH]; intros H; [reflexivity |].
  simpl. rewrite (H x (or_introl eq_refl)).
  apply IH. intros m Hm. apply H. right. exact Hm.
Qed.

Section LeaderResolution.

Variable _LEADER : string.
Variable nodes : list (string * pyval).
Variable members : list Member.
Variable node : pyval.
Variable value : string.
Variables index lease : pyval.

(** The index holds a leader node with a value, a revision and a lease
    entry. *)
Hypothesis present : dict_lookup nodes _LEADER = Some node.
Hypothesis has_value : py_getitem node "value" = Ok (PStr value).
Hypothesis has_revision : py_getitem node "mod_revision" = Ok index.
Hypothesis has_lease : py_getitem node "lease" = Ok lease.

Let placeholder : Member := mkMember (PInt (-1)) value PNone (PDict []).

Lemma load_leader_run :
  load_leader _LEADER nodes members =
    Ok (Some (mkLeader index lease
                (hd placeholder
                    (List.filter
                       (fun m => String.eqb (member_name m) value)
                       members)))).
Proof.
  unfold load_leader, node_text. rewrite present.
  assert (Ht : truthy node = true).
  { destruct node as [| | | | | d]; try discriminate has_value.
    destruct d; [discriminate has_value | reflexivity]. }
  rewrite Ht, has_value. cbn. rewrite has_revision. cbn.
  rewrite has_lease. reflexivity.
Qed.

(** C9.  The leader record is built, without a failure, around the one
    member named by the value of the leader key when there is exactly
    one, and around a placeholder member (revision -1, the name, no
    session, no data) when there is none. *)
Theorem load_leader_spec :
  (forall m,
      In m members ->
      member_name m = value ->
      (forall m', In m' members -> member_name m' = value -> m' = m) ->
      load_leader _LEADER nodes members
        = Ok (Some (mkLeader index lease m)))
  /\
  ((forall m, In m members -> member_name m <> value) ->
   load_leader _LEADER nodes members
     = Ok (Some (mkLeader index lease
                   (mkMember (PInt (-1)) value PNone (PDict []))))).
Proof.
  split.
  - intros m Hin Hname Huniq. rewrite load_leader_run.
    rewrite (hd_filter_unique _ placeholder m members Hin).
    + reflexivity.
    + apply String.eqb_eq, Hname.
    + intros m' Hm' Hf. apply Huniq; [exact Hm' |].
      apply String.eqb_eq, Hf.
  - intros Hnone. rewrite load_leader_run, filter_none; [reflexivity |].
    intros m Hm. apply String.eqb_neq, Hnone, Hm.
Qed.

End LeaderResolution.

Lemma load_leader_spec_witness :
  load_leader "leader" [("leader", Scenario.leader_node "nodeZ")] []
  = Ok (Some (mkLeader (PStr "42") (PStr "1001")
                (mkMember (PInt (-1)) "nodeZ" PNone (PDict [])))).
Proof.
  exact (proj2 (load_leader_spec "leader"
                  [("leader", Scenario.leader_node "nodeZ")] []
                  (Scenario.leader_node "nodeZ") "nodeZ"
                  (PStr "42") (PStr "1001")
                  eq_refl eq_refl eq_refl eq_refl)
               (fun m (H : In m []) => match H with end)).
Defined.

(** * Further properties *)

(** ** The header patch *)

(** X1.  However often the gateway repeats a `transfer-encoding` header
    with one value, the message keeps that value once. *)
Theorem dedup_addheader_repeated (dict : gmap string string) (value : string)
    (n : nat) :
  dict !! "transfer-encoding" = None ->
  Nat.iter (S n) (fun d => dedup_addheader d "transfer-encoding" value) dict
  = <["transfer-encoding" := value]> dict.
Proof.
  intros Hnone. induction n as [| n IH].
  - cbn [Nat.iter nat_rect]. unfold dedup_addheader. rewrite Hnone. reflexivity.
  - change (Nat.iter (S (S n)) ?f dict) with (f (Nat.iter (S n) f dict)).
    rewrite IH. unfold dedup_addheader. rewrite lookup_insert_eq.
    rewrite String.eqb_refl. cbn [negb orb].
    rewrite String.eqb_refl. reflexivity.
Qed.

Lemma dedup_addheader_repeated_witness :
  Nat.iter 3 (fun d => dedup_addheader d "transfer-encoding" "chunked") ∅
  = <["transfer-encoding" := "chunked"]> ∅.
Proof.
  exact (dedup_addheader_repeated ∅ "chunked" 2 (lookup_empty _)).
Defined.

(** X2.  A header that comes again with another value, or any header other
    than `transfer-encoding` that comes again, is joined to the value
    held, in order; no other header is touched by an addition. *)
Theorem dedup_addheader_joins (dict : gmap string string)
    (key prev value : string) :
  dict !! key = Some prev ->
  key <> "transfer-encoding" \/ prev <> value ->
  dedup_addheader dict key value !! key
    = Some (prev ++ ", " ++ value)%string
  /\
  (forall other, other <> key ->
                 dedup_addheader dict key value !! other = dict !! other).
Proof.
  intros Hprev Hcond. unfold dedup_addheader. rewrite Hprev.
  assert (Hb : negb (String.eqb key "transfer-encoding")
               || negb (String.eqb prev value) = true).
  { destruct Hcond as [H | H]; apply String.eqb_neq in H; rewrite H;
      [reflexivity | apply orb_true_r]. }
  rewrite Hb. split.
  - apply lookup_insert_eq.
  - intros other Hne. apply lookup_insert_ne. congruence.
Qed.

Lemma dedup_addheader_joins_witness :
  dedup_addheader (<["set-cookie" := "a=1"]> ∅) "set-cookie" "b=2"
    !! "set-cookie"
  = Some ("a=1" ++ ", " ++ "b=2")%string.
Proof.
  refine (proj1 (dedup_addheader_joins (<["set-cookie" := "a=1"]> ∅)
                   "set-cookie" "a=1" "b=2" _ _)).
  - apply lookup_insert_eq.
  - left. discriminate.
Defined.

(** ** The tables of the taxonomy *)

(** X3.  The text table is the enumeration of the codes read backwards: a
    code has a text exactly when the enumeration has an attribute of that
    name with that code. *)
Theorem GRPCcodeToText_inverse (code : Z) (name : string) :
  GRPCcodeToText !! code = Some name <-> In (name, code) GRPCCode.items.
Proof.
  split.
  - intros H. apply elem_of_map_to_list in H. vm_compute in H.
    repeat (apply elem_of_cons in H as [H | H];
            [injection H as -> ->; vm_compute; tauto |]).
    inversion H.
  - intros H. unfold GRPCCode.items in H. cbn [In] in H.
    repeat (destruct H as [H | H];
            [injection H as <- <-; vm_compute; reflexivity |]).
    destruct H.
Qed.

(** X4.  The generator yields every class below the root exactly once. *)
Theorem get_subclasses_enumerates :
  get_subclasses Etcd3ClientError ≡ₚ tail classes.
Proof.
  apply NoDup_Permutation.
  - exact get_subclasses_NoDup.
  - apply (bool_decide_unpack _). vm_compute. reflexivity.
  - intros x.
    assert (E : bool_decide (x ∈ get_subclasses Etcd3ClientError)
                = bool_decide (x ∈ tail classes))
      by (destruct x; vm_compute; reflexivity).
    split; intros H; apply (bool_decide_pack _) in H;
      apply (bool_decide_unpack _); congruence.
Qed.

(** X5.  A message is filed in the message table under exactly the class
    declared with it; so no two classes share a message and no entry of
    the table was overwritten. *)
Theorem errStringToClientError_exact (m : string) (c : errclass) :
  errStringToClientError !! m = Some c <-> class_error c = Some m.
Proof.
  split; [apply errStringToClientError_lookup
         | apply errStringToClientError_complete].
Qed.

(** X6.  A code is filed in the code table under exactly the class that
    carries that code and no message. *)
Theorem errCodeToClientError_exact (z : Z) (c : errclass) :
  errCodeToClientError !! z = Some c <->
  class_error c = None /\ class_code c = Some z.
Proof.
  split; [apply errCodeToClientError_lookup |].
  intros [He Hc].
  destruct c; vm_compute in He; try discriminate He;
    vm_compute in Hc; try discriminate Hc;
    injection Hc as <-; vm_compute; reflexivity.
Qed.

(** X7.  For a message that is not one of the fixed messages the class is
    chosen by the code, and only five codes have a class of their own: an
    error of any other code, DeadlineExceeded (4) among them, is classed
    as Unknown. *)
Theorem select_class_unmatched_message (m : string) (z : Z) :
  errStringToClientError !! m = None ->
  select_class (PStr m) (PInt z)
  = Ok (if z =? GRPCCode.InvalidArgument then InvalidArgument
        else if z =? GRPCCode.NotFound then NotFound
        else if z =? GRPCCode.FailedPrecondition then FailedPrecondition
        else if z =? GRPCCode.OutOfRange then OutOfRange
        else if z =? GRPCCode.Unavailable then Unavailable
        else Unknown).
Proof.
  intros Hm. destruct (errCodeToClientError !! z) as [c |] eqn:Hz.
  - rewrite (proj1 (select_class_by_code m z c Hm Hz)).
    apply errCodeToClientError_lookup in Hz as [He Hc].
    destruct c; vm_compute in He; try discriminate He;
      vm_compute in Hc; try discriminate Hc; injection Hc as <-; reflexivity.
  - rewrite (select_class_unknown m z Hm Hz).
    repeat match goal with
           | |- context [z =? ?k] =>
               destruct (Z.eqb_spec z k) as [-> | _];
               [vm_compute in Hz; discriminate Hz |]
           end.
    reflexivity.
Qed.

Lemma select_class_unmatched_message_witness :
  select_class (PStr "deadline exceeded somewhere")
               (PInt GRPCCode.DeadlineExceeded) = Ok Unknown.
Proof.
  exact (select_class_unmatched_message "deadline exceeded somewhere"
           GRPCCode.DeadlineExceeded ltac:(vm_compute; reflexivity)).
Defined.

(** ** The status decoder on every response *)

Lemma raise_for_status_raises json_loads (response : HTTPResponse) :
  400 <= status response ->
  exists e, _raise_for_status json_loads response = Raise e.
Proof.
  intros H. unfold _raise_for_status.
  destruct (Z.ltb_spec (status response) 400); [lia |].
  destruct (extract_error json_loads (data response)) as [error code].
  destruct (select_class error code) as [c | e]; [| eauto].
  reduce_around_calls.
  destruct (Etcd3ClientError__init__ c error code (status response));
    reduce_around_calls; eauto.
Qed.

(** X8.  A response below 400 never raises, and a response from 400 on
    never returns: whatever its body, the decoder ends in an exception. *)
Theorem raise_for_status_never_returns json_loads (response : HTTPResponse) :
  (status response < 400 -> _raise_for_status json_loads response = Ok tt)
  /\
  (400 <= status response ->
   exists e, _raise_for_status json_loads response = Raise e).
Proof.
  split; [apply raise_for_status_success | apply raise_for_status_raises].
Qed.

Lemma raise_for_status_never_returns_witness :
  exists e, _raise_for_status (fun _ => None) (Response 502 "Bad Gateway")
            = Raise e.
Proof.
  exact (proj2 (raise_for_status_never_returns (fun _ => None)
                  (Response 502 "Bad Gateway"))
               ltac:(simpl; lia)).
Defined.

(** Whatever the code is, a fixed message decides the class, and the error
    raised holds the status and neither a message of its own nor the text
    of its code. *)
Lemma raise_for_status_by_message json_loads (response : HTTPResponse)
    (m : string) (code : pyval) (c : errclass) :
  400 <= status response ->
  extract_error json_loads (data response) = (PStr m, code) ->
  errStringToClientError !! m = Some c ->
  _raise_for_status json_loads response
  = Raise (ClientError (ClientErrorObj c None None (status response))).
Proof.
  intros Hs He Hm. unfold _raise_for_status.
  destruct (Z.ltb_spec (status response) 400); [lia |].
  rewrite He. rewrite (select_class_by_message m code c Hm).
  reduce_around_calls.
  unfold Etcd3ClientError__init__, hasattr_error.
  rewrite (errStringToClientError_lookup m c Hm). reflexivity.
Qed.

(** X9.  A fixed message is recognised in each of the three shapes of a
    body: the flat object, with or without a code; the streaming object
    with the message and code nested under `error`; and a body that is
    not JSON and is the message itself. *)
Theorem raise_for_status_message_shapes json_loads (response : HTTPResponse)
    (m : string) (c : errclass) :
  400 <= status response ->
  errStringToClientError !! m = Some c ->
  (exists d, json_loads (data response) = Some (PDict d) /\
             dict_lookup d "error" = Some (PStr m))
  \/
  (exists d e code, json_loads (data response) = Some (PDict d) /\
                    dict_lookup d "error" = Some (PDict e) /\
                    dict_lookup e "grpc_code" = Some code /\
                    dict_lookup e "message" = Some (PStr m))
  \/
  (json_loads (data response) = None /\ data response = m) ->
  _raise_for_status json_loads response
  = Raise (ClientError (ClientErrorObj c None None (status response))).
Proof.
  intros Hs Hm [(d & Hj & He) | [(d & e & code & Hj & He & Hc & Hmsg) | [Hj Hd]]].
  - eapply raise_for_status_by_message; [exact Hs | | exact Hm].
    unfold extract_error. rewrite Hj, He. reflexivity.
  - eapply raise_for_status_by_message; [exact Hs | | exact Hm].
    unfold extract_error. rewrite Hj, He. cbn. rewrite Hc, Hmsg. reflexivity.
  - eapply raise_for_status_by_message; [exact Hs | | exact Hm].
    unfold extract_error. rewrite Hj, Hd. reflexivity.
Qed.

Lemma raise_for_status_message_shapes_witness :
  _raise_for_status
    (fun _ => Some (PDict [("error",
                            PDict [("grpc_code", PInt 14);
                                   ("http_code", PInt 503);
                                   ("message", PStr "etcdserver: no leader")])]))
    (Response 503 "body")
  = Raise (ClientError (ClientErrorObj NoLeader None None 503)).
Proof.
  apply (raise_for_status_message_shapes _ (Response 503 "body")
           "etcdserver: no leader" NoLeader).
  - simpl. lia.
  - vm_compute. reflexivity.
  - right. left. eexists _, _, (PInt 14). repeat split; reflexivity.
Defined.






(** X11.  A body that is a JSON array, and a streaming body whose `error`
    object lacks the code or the message, make the decoder look the parsed
    body up in the message table; it ends in `TypeError`. *)
Theorem raise_for_status_unhashable json_loads (response : HTTPResponse) :
  400 <= status response ->
  (exists l, json_loads (data response) = Some (PList l))
  \/
  (exists d e, json_loads (data response) = Some (PDict d) /\
               dict_lookup d "error" = Some (PDict e) /\
               (dict_lookup e "grpc_code" = None \/
                dict_lookup e "message" = None)) ->
  _raise_for_status json_loads response = Raise TypeError.
Proof.
  intros Hs H. unfold _raise_for_status, extract_error.
  destruct (Z.ltb_spec (status response) 400); [lia |].
  destruct H as [(l & Hj) | (d & e & Hj & He & Hmiss)]; rewrite Hj.
  - reflexivity.
  - rewrite He. cbn.
    destruct Hmiss as [H | H]; rewrite H;
      [| destruct (dict_lookup e "grpc_code")]; reflexivity.
Qed.

Lemma raise_for_status_unhashable_witness :
  _raise_for_status (fun _ => Some (PList [])) (Response 500 "[]")
  = Raise TypeError.
Proof.
  exact (raise_for_status_unhashable (fun _ => Some (PList []))
           (Response 500 "[]") ltac:(simpl; lia)
           (or_introl (ex_intro _ [] eq_refl))).
Defined.

(** X12.  The response handler returns the parsed body of a response below
    400, fails with the client's own exception when that body is not JSON,
    and never returns a body for a response from 400 on. *)
Theorem handle_server_response_spec json_loads (response : HTTPResponse) :
  (status response < 400 ->
   _handle_server_response json_loads response
   = match json_loads (data response) with
     | Some v => Ok v
     | None => Raise (EtcdException "Server response was not valid JSON")
     end)
  /\
  (400 <= status response ->
   forall v, _handle_server_response json_loads response <> Ok v).
Proof.
  unfold _handle_server_response. split.
  - intros H. rewrite (raise_for_status_success json_loads response H).
    reflexivity.
  - intros H v.
    destruct (raise_for_status_raises json_loads response H) as [e ->].
    discriminate.
Qed.

Lemma handle_server_response_spec_witness :
  _handle_server_response (fun _ => None) (Response 200 "<html>")
  = Raise (EtcdException "Server response was not valid JSON").
Proof.
  exact (proj1 (handle_server_response_spec (fun _ => None)
                  (Response 200 "<html>"))
               ltac:(simpl; lia)).
Defined.

(** ** Base64 *)

(** The sixty-four characters of the alphabet are told apart, and none is
    the padding character. *)
Lemma b64_alphabet_checked :
  forallb (fun k : nat =>
             let i := N.of_nat k in
             match b64_index (b64_char i) with
             | Some j => N.eqb i j
             | None => false
             end && negb (Ascii.eqb (b64_char i) "="))
          (List.seq 0 64) = true.
Proof. vm_compute. reflexivity. Qed.

Lemma b64_char_index (i : N) :
  (i < 64)%N ->
  b64_index (b64_char i) = Some i /\ Ascii.eqb (b64_char i) "=" = false.
Proof.
  intros H. pose proof b64_alphabet_checked as Hall.
  rewrite forallb_forall in Hall.
  specialize (Hall (N.to_nat i)). rewrite N2Nat.id in Hall. cbv zeta in Hall.
  assert (Hin : In (N.to_nat i) (List.seq 0 64)) by (apply in_seq; lia).
  apply Hall in Hin. apply andb_true_iff in Hin as [H1 H2].
  destruct (b64_index (b64_char i)) as [j |]; [| discriminate H1].
  apply N.eqb_eq in H1. subst j. split; [reflexivity |].
  apply negb_true_iff, H2.
Qed.

Lemma b64_group3 (A B C : N) :
  (A < 256)%N -> (B < 256)%N -> (C < 256)%N ->
  let n := (A * 65536 + B * 256 + C)%N in
  let i0 := (n / 262144)%N in
  let i1 := ((n / 4096) mod 64)%N in
  let i2 := ((n / 64) mod 64)%N in
  let i3 := (n mod 64)%N in
  (i0 < 64 /\ i1 < 64 /\ i2 < 64 /\ i3 < 64 /\
   i0 * 4 + i1 / 16 = A /\ (i1 mod 16) * 16 + i2 / 4 = B /\
   (i2 mod 4) * 64 + i3 = C)%N.
Proof.
  intros HA HB HC n i0 i1 i2 i3. subst i0 i1 i2 i3.
  assert (Hn : n = (A * 65536 + B * 256 + C)%N) by reflexivity. clearbody n.
  assert (H0 : (n / 262144 < 64)%N)
    by (zify; Z.to_euclidean_division_equations; lia).
  assert (H1 : ((n / 4096) mod 64 < 64)%N) by (apply N.mod_lt; discriminate).
  assert (H2 : ((n / 64) mod 64 < 64)%N) by (apply N.mod_lt; discriminate).
  assert (H3 : (n mod 64 < 64)%N) by (apply N.mod_lt; discriminate).
  assert (E0 : (n / 262144 * 4 + (n / 4096) mod 64 / 16 = A)%N)
    by (zify; Z.to_euclidean_division_equations; lia).
  assert (E1 : (((n / 4096) mod 64) mod 16 * 16 + (n / 64) mod 64 / 4 = B)%N)
    by (zify; Z.to_euclidean_division_equations; lia).
  assert (E2 : (((n / 64) mod 64) mod 4 * 64 + n mod 64 = C)%N)
    by (zify; Z.to_euclidean_division_equations; lia).
  repeat split; assumption.
Qed.

Lemma b64encode_1 (a : byte) :
  b64encode [a] =
    let n := (Byte.to_N a * 65536)%N in
    String (b64_char (n / 262144))
      (String (b64_char ((n / 4096) mod 64)) "==").
Proof. reflexivity. Qed.

Lemma b64encode_2 (a b : byte) :
  b64encode [a; b] =
    let n := (Byte.to_N a * 65536 + Byte.to_N b * 256)%N in
    String (b64_char (n / 262144))
      (String (b64_char ((n / 4096) mod 64))
         (String (b64_char ((n / 64) mod 64)) "=")).
Proof. reflexivity. Qed.

Lemma b64encode_3 (a b c : byte) (rest : list byte) :
  b64encode (a :: b :: c :: rest) =
    let n := (Byte.to_N a * 65536 + Byte.to_N b * 256 + Byte.to_N c)%N in
    String (b64_char (n / 262144))
      (String (b64_char ((n / 4096) mod 64))
         (String (b64_char ((n / 64) mod 64))
            (String (b64_char (n mod 64)) (b64encode rest)))).
Proof. reflexivity. Qed.

Lemma byte_lt (a : byte) : (Byte.to_N a < 256)%N.
Proof. pose proof (Byte.to_N_bounded a). lia. Qed.

Lemma bytes_of_to_N (l : list byte) : bytes_of (List.map Byte.to_N l) = Some l.
Proof.
  unfold bytes_of. induction l as [| a l IH]; [reflexivity |].
  cbn [List.map mapM]. rewrite Byte.of_to_N. cbn [mbind option_bind].
  change (mapM Byte.of_N (List.map Byte.to_N l)) with
    (mapM Byte.of_N (List.map Byte.to_N l)).
  rewrite IH. reflexivity.
Qed.

Lemma b64read_group3 (a b c : byte) (rest : list byte) :
  b64read (b64encode rest) = Some rest ->
  b64read (b64encode (a :: b :: c :: rest)) = Some (a :: b :: c :: rest).
Proof.
  intros IH. rewrite b64encode_3. cbv zeta.
  destruct (b64_group3 (Byte.to_N a) (Byte.to_N b) (Byte.to_N c)
              (byte_lt a) (byte_lt b) (byte_lt c))
    as (H0 & H1 & H2 & H3 & E0 & E1 & E2).
  cbv zeta in *.
  cbn [b64read].
  rewrite (proj1 (b64_char_index _ H0)), (proj1 (b64_char_index _ H1)),
          (proj1 (b64_char_index _ H2)), (proj1 (b64_char_index _ H3)),
          (proj2 (b64_char_index _ H2)), (proj2 (b64_char_index _ H3)).
  cbn [mbind option_bind].
  rewrite E0, E1, E2, IH.
  pose proof (bytes_of_to_N [a; b; c]) as Hb. cbn [List.map] in Hb.
  rewrite Hb. reflexivity.
Qed.

Lemma b64read_group2 (a b : byte) :
  b64read (b64encode [a; b]) = Some [a; b].
Proof.
  rewrite b64encode_2. cbv zeta.
  destruct (b64_group3 (Byte.to_N a) (Byte.to_N b) 0
              (byte_lt a) (byte_lt b) eq_refl)
    as (H0 & H1 & H2 & _ & E0 & E1 & _).
  cbv zeta in *. rewrite N.add_0_r in *.
  cbn [b64read].
  rewrite (proj1 (b64_char_index _ H0)), (proj1 (b64_char_index _ H1)),
          (proj1 (b64_char_index _ H2)), (proj2 (b64_char_index _ H2)).
  cbn [mbind option_bind Ascii.eqb Bool.eqb String.eqb andb].
  rewrite E0, E1.
  pose proof (bytes_of_to_N [a; b]) as Hb. cbn [List.map] in Hb.
  exact Hb.
Qed.

Lemma b64read_group1 (a : byte) : b64read (b64encode [a]) = Some [a].
Proof.
  rewrite b64encode_1. cbv zeta.
  destruct (b64_group3 (Byte.to_N a) 0 0 (byte_lt a) eq_refl eq_refl)
    as (H0 & H1 & _ & _ & E0 & _).
  cbv zeta in *. rewrite N.mul_0_l, !N.add_0_r in *.
  cbn [b64read].
  rewrite (proj1 (b64_char_index _ H0)), (proj1 (b64_char_index _ H1)).
  cbn [mbind option_bind Ascii.eqb Bool.eqb String.eqb andb].
  rewrite E0.
  pose proof (bytes_of_to_N [a]) as Hb. cbn [List.map] in Hb.
  exact Hb.
Qed.

Lemma b64read_b64encode_bounded (n : nat) (bs : list byte) :
  (List.length bs <= n)%nat -> b64read (b64encode bs) = Some bs.
Proof.
  revert bs. induction n as [| n IH]; intros bs Hlen.
  - destruct bs; [reflexivity | simpl in Hlen; lia].
  - destruct bs as [| a [| b [| c rest]]].
    + reflexivity.
    + apply b64read_group1.
    + apply b64read_group2.
    + apply b64read_group3, IH. simpl in Hlen. lia.
Qed.

(** X13.  The base64 form of a key or value can be read back to its
    bytes; so two keys with the same encoded form are the same bytes. *)
Theorem base64_encode_loses_nothing :
  (forall v, b64read (base64_encode v) = Some (to_bytes v)) /\
  (forall k1 k2,
      base64_encode k1 = base64_encode k2 -> to_bytes k1 = to_bytes k2).
Proof.
  assert (Hread : forall v, b64read (base64_encode v) = Some (to_bytes v)).
  { intros v. unfold base64_encode.
    exact (b64read_b64encode_bounded _ (to_bytes v) (le_n _)). }
  split; [exact Hread |].
  intros k1 k2 H. pose proof (Hread k1) as H1.
  rewrite H, Hread in H1. congruence.
Qed.

Lemma base64_encode_loses_nothing_witness :
  to_bytes (Str "leader") = to_bytes (Bytes (list_byte_of_string "leader")).
Proof.
  exact (proj2 base64_encode_loses_nothing (Str "leader")
               (Bytes (list_byte_of_string "leader")) eq_refl).
Defined.

(** ** Ranges *)

Section Ranges.

Variable api_execute : list event -> string -> pyval -> result pyval.
Variable key : pytext.
Variable w : world.

(** A request in state [w]: the answer of the gateway and the state with
    the request on its trace. *)
Let post (method : string) (fields : pyval) : result pyval * world :=
  (api_execute (trace w) (version_prefix w ++ method)%string fields,
   emit (EvRpc (version_prefix w ++ method)%string fields) w).

(** X14.  On an empty key, and on a key whose last byte is 0xFF, `prefix`
    and `deleteprefix` raise before anything is sent: the state is as it
    was. *)
Theorem prefix_refuses_key :
  (to_bytes key = [] ->
   prefix api_execute key w = (Raise IndexError, w) /\
   deleteprefix api_execute key w = (Raise IndexError, w))
  /\
  (forall pre, to_bytes key = pre ++ [xff] ->
               prefix api_execute key w = (Raise ValueError, w) /\
               deleteprefix api_execute key w = (Raise ValueError, w)).
Proof.
  unfold prefix, deleteprefix. split.
  - intros H. rewrite (increment_last_byte_empty key H). split; reflexivity.
  - intros pre H.
    assert (E : increment_last_byte key = Raise ValueError)
      by (unfold increment_last_byte; rewrite H, last_snoc; reflexivity).
    rewrite E. split; reflexivity.
Qed.

(** X15.  On any other key `prefix` and `deleteprefix` address one and
    the same range, from the key to the key with its last byte one higher,
    the first with `/kv/range`, the second with a plain `/kv/deleterange`. *)
Theorem prefix_range (pre : list byte) (b b' : byte) :
  to_bytes key = pre ++ [b] ->
  Byte.of_N (Byte.to_N b + 1) = Some b' ->
  let fields :=
    PDict [("key", PStr (base64_encode key));
           ("range_end", PStr (base64_encode (Bytes (pre ++ [b']))))] in
  prefix api_execute key w = post "/kv/range" fields /\
  deleteprefix api_execute key w = post "/kv/deleterange" fields.
Proof.
  intros Hkey Hb fields. subst fields.
  assert (E : increment_last_byte key = Ok (pre ++ [b'])).
  { unfold increment_last_byte. rewrite Hkey, last_snoc, Hb, insert_last.
    reflexivity. }
  unfold prefix, deleteprefix, range, deleterange, build_range_request,
         nonempty, post.
  rewrite E. run. destruct pre; split; reflexivity.
Qed.

(** X16.  An empty `range_end` is dropped from the request: the range or
    the delete then addresses the single key, as with no `range_end`. *)
Theorem empty_range_end_dropped (range_end : option pytext)
    (mod_revision : pyval) :
  nonempty range_end = false ->
  range api_execute key range_end w = range api_execute key None w /\
  deleterange api_execute key range_end mod_revision w
  = deleterange api_execute key None mod_revision w.
Proof.
  intros H. unfold range, deleterange, build_range_request.
  destruct range_end as [r |]; [rewrite H |]; split; reflexivity.
Qed.


(** X18.  With a mod-revision and no create-revision, `put` is one
    transaction whose only comparison is on the key's mod-revision, and it
    returns the `succeeded` entry of the answer. *)
Theorem put_guarded_by_mod_revision (value : pytext)
    (lease mod_revision : pyval) :
  is_None mod_revision = false ->
  let fields :=
    [("key", PStr (base64_encode key)); ("value", PStr (base64_encode value))]
    ++ (if truthy lease then [("lease", lease)] else []) in
  let txn :=
    PDict [("compare",
            PList [PDict [("target", PStr "MOD");
                          ("mod_revision", mod_revision);
                          ("key", PStr (base64_encode key))]]);
           ("success", PList [PDict [("request_put", PDict fields)]])] in
  put api_execute key value lease PNone mod_revision w
  = ((post "/kv/txn" txn).1 ≫= (fun r => py_get r "succeeded"),
     (post "/kv/txn" txn).2).
Proof.
  intros H fields txn. subst fields txn. unfold post. cbn [fst snd].
  exact (put_with_mod_revision api_execute key value lease w mod_revision H).
Qed.

(** X19.  `deleterange` without a mod-revision is a plain
    `/kv/deleterange` that returns the answer as it is; with one, it is a
    transaction guarded by the mod-revision of the key that returns the
    `succeeded` entry. *)
Theorem deleterange_plain_or_guarded (range_end : option pytext)
    (mod_revision : pyval) :
  let fields := build_range_request key range_end in
  let txn :=
    PDict [("compare",
            PList [PDict [("target", PStr "MOD");
                          ("mod_revision", mod_revision);
                          ("key", PStr (base64_encode key))]]);
           ("success",
            PList [PDict [("request_delete_range", PDict fields)]])] in
  (is_None mod_revision = true ->
   deleterange api_execute key range_end mod_revision w
   = post "/kv/deleterange" (PDict fields))
  /\
  (is_None mod_revision = false ->
   deleterange api_execute key range_end mod_revision w
   = ((post "/kv/txn" txn).1 ≫= (fun r => py_get r "succeeded"),
      (post "/kv/txn" txn).2)).
Proof.
  intros fields txn. subst fields txn. unfold deleterange, post.
  split; intros H; rewrite H; [reflexivity |].
  assert (K : dict_lookup (build_range_request key range_end) "key"
              = Some (PStr (base64_encode key))).
  { unfold build_range_request.
    destruct range_end as [r |]; [destruct (nonempty (Some r)) |];
      reflexivity. }
  rewrite K. run. destruct (api_execute _ _ _); reflexivity.
Qed.

(** X20.  What the keepalive returns for an answer of the gateway: `None`
    when the answer has no `result`, the TTL of the result or `None` when
    it has none, and `AttributeError` when the result is not an object. *)
Theorem lease_keepalive_results (ID : pyval) (d : list (string * pyval)) :
  (post "/lease/keepalive" (PDict [("ID", ID)])).1 = Ok (PDict d) ->
  let after := (post "/lease/keepalive" (PDict [("ID", ID)])).2 in
  (dict_lookup d "result" = None ->
   lease_keepalive api_execute ID w = (Ok PNone, after))
  /\
  (forall res, dict_lookup d "result" = Some (PDict res) ->
               lease_keepalive api_execute ID w
               = (Ok (default PNone (dict_lookup res "TTL")), after))
  /\
  (forall v, dict_lookup d "result" = Some v ->
             (forall res, v <> PDict res) ->
             lease_keepalive api_execute ID w = (Raise AttributeError, after)).
Proof.
  intros Hr after. subst after. unfold post in *. cbn [fst snd] in *.
  unfold lease_keepalive. run. rewrite Hr. cbn.
  repeat split.
  - intros H. rewrite H. reflexivity.
  - intros res H. rewrite H. reflexivity.
  - intros v H Hv. rewrite H. cbn. destruct v; try reflexivity.
    destruct (Hv d0). reflexivity.
Qed.

End Ranges.

(** ** Version negotiation and lease bootstrap *)

(** X21.  Negotiation either leaves the state as it was (the stable prefix
    is already cached), or asks for the version once and sets one of the
    three prefixes; when it fails, the request is on the trace and the
    cached prefix is unchanged. *)
Theorem ensure_version_prefix_outcomes request_version json_loads (w : world) :
  match _ensure_version_prefix request_version json_loads w with
  | (Ok _, w') =>
      w' = w \/
      exists p, In p ["/v3alpha"; "/v3beta"; "/v3"] /\
                w' = set_version_prefix p (emit EvGetVersion w)
  | (Raise _, w') => w' = emit EvGetVersion w
  end.
Proof.
  unfold _ensure_version_prefix. run.
  destruct (String.eqb (version_prefix w) "/v3"); cbn; [left; reflexivity |].
  destruct (request_version (trace w)) as [response | e]; cbn; [| reflexivity].
  destruct (_handle_server_response json_loads response) as [body | e]; cbn;
    [| reflexivity].
  destruct (py_getitem body "etcdcluster") as [v | e]; cbn; [| reflexivity].
  destruct v; cbn; try reflexivity.
  destruct (parse_version s) as [version | e]; cbn; [| reflexivity].
  destruct (tuple_ltb version [3; 3]); cbn;
    [right; exists "/v3alpha"; cbn; auto |].
  destruct (tuple_ltb version [3; 4]); cbn;
    right; [exists "/v3beta" | exists "/v3"]; cbn; auto.
Qed.

Section Lease.

Variable api_execute : list event -> string -> pyval -> result pyval.
Variable time_time : list event -> Z.
Variable retry_budget : nat.

(** X22.  `refresh_lease` never lets an error of the taxonomy or a
    `RetryFailedError` out: those end in the driver's own `EtcdError`. *)
Theorem refresh_lease_raises_own_failure (w w' : world) (e : exn) :
  refresh_lease api_execute time_time retry_budget w = (Raise e, w') ->
  (forall o, e <> ClientError o) /\ e <> RetryFailedError.
Proof.
  unfold refresh_lease, try_except.
  destruct (retry retry_budget (_do_refresh_lease api_execute time_time) w)
    as [[b | e0] w0]; [discriminate |].
  destruct e0; cbn; intros H; injection H as <- _; split; intros; discriminate.
Qed.

Lemma create_lease_fuel (fuel : nat) :
  forall w x,
    create_lease api_execute time_time retry_budget fuel w = Some x ->
    create_lease api_execute time_time retry_budget (S fuel) w = Some x.
Proof.
  induction fuel as [| fuel IH]; intros w x.
  - cbn [create_lease]. destruct (truthy (_lease w)); [tauto | discriminate].
  - intros H. cbn [create_lease] in H.
    change (create_lease api_execute time_time retry_budget (S (S fuel)) w)
      with (if truthy (_lease w) then Some (Ok tt, w)
            else match refresh_lease api_execute time_time retry_budget w with
                 | (Ok _, w') =>
                     create_lease api_execute time_time retry_budget (S fuel) w'
                 | (Raise (EtcdError _), w') =>
                     match (_ ← log "waiting on etcd"; sleep 5) w' with
                     | (Ok _, w'') =>
                         create_lease api_execute time_time retry_budget
                                      (S fuel) w''
                     | (Raise e, w'') => Some (Raise e, w'')
                     end
                 | (Raise e, w') => Some (Raise e, w')
                 end).
    destruct (truthy (_lease w)); [exact H |].
    destruct (refresh_lease api_execute time_time retry_budget w)
      as [[b | e] w1]; [apply IH, H |].
    destruct e; try exact H.
    cbn in H |- *. apply IH, H.
Qed.

(** X23.  `create_lease` returns only with a lease held; what it returns
    does not depend on the fuel, once there is enough; and an `EtcdError`
    of the refresh does not end the loop. *)
Theorem create_lease_spec (fuel : nat) (w : world) :
  (forall w', create_lease api_execute time_time retry_budget fuel w
              = Some (Ok tt, w') ->
              truthy (_lease w') = true)
  /\
  (forall x, create_lease api_execute time_time retry_budget fuel w = Some x ->
             forall more,
               create_lease api_execute time_time retry_budget (more + fuel) w
               = Some x)
  /\
  (truthy (_lease w) = false ->
   forall msg w',
     refresh_lease api_execute time_time retry_budget w
     = (Raise (EtcdError msg), w') ->
     create_lease api_execute time_time retry_budget (S fuel) w
     = create_lease api_execute time_time retry_budget fuel w').
Proof.
  repeat split.
  - revert w. induction fuel as [| fuel IH]; intros w w'; cbn [create_lease].
    + destruct (truthy (_lease w)) eqn:Hl; [| discriminate].
      intros H. injection H as <-. exact Hl.
    + destruct (truthy (_lease w)) eqn:Hl.
      * intros H. injection H as <-. exact Hl.
      * destruct (refresh_lease api_execute time_time retry_budget w)
          as [[b | e] w1]; [apply IH |].
        destruct e; try discriminate. cbn. apply IH.
  - intros x H more. induction more as [| more IH]; [exact H |].
    apply create_lease_fuel, IH.
  - intros Hl msg w' Hr. cbn [create_lease]. rewrite Hl, Hr. reflexivity.
Qed.

End Lease.

(** ** Acquisition and heartbeat *)

Section Acquisition.

Variable api_execute : list event -> string -> pyval -> result pyval.
Variable time_time : list event -> Z.
Variable retry_budget : nat.
Variable leader_path : string.

(** The election request made in state [w] under lease [lease]. *)
Let election (w : world) (lease : pyval) : event :=
  let key := PStr (base64_encode (Str leader_path)) in
  let fields :=
    [("key", key); ("value", PStr (base64_encode (Str (_name w))))]
    ++ (if truthy lease then [("lease", lease)] else []) in
  EvRpc (version_prefix w ++ "/kv/txn")%string
    (PDict [("compare",
             PList [PDict [("target", PStr "CREATE");
                           ("create_revision", PInt 0); ("key", key)]]);
            ("success", PList [PDict [("request_put", PDict fields)]])]).

Let answer (ev : event) (w : world) : result pyval :=
  match ev with
  | EvRpc path fields => api_execute (trace w) path fields
  | _ => Raise (OtherError "not a POST")
  end.

(** An answer that the election path neither retries nor recovers from. *)
Let final (a : result pyval) : Prop :=
  match a with
  | Ok _ => True
  | Raise e =>
      is_retryable e = false /\
      forall o, e = ClientError o -> err_class o <> LeaseNotFound
  end.

Lemma cas_put_once (w : world) (lease : pyval) :
  final (answer (election w lease) w) ->
  retry retry_budget
    (put api_execute (Str leader_path) (Str (_name w)) lease (PInt 0) PNone) w
  = (r ← answer (election w lease) w; py_get r "succeeded",
     emit (election w lease) w).
Proof.
  intros Hf. unfold retry.
  pose proof (put_with_create_revision api_execute (Str leader_path)
                (Str (_name w)) lease w (PInt 0) PNone eq_refl) as Hput.
  unfold answer, election, final in *.
  destruct (api_execute _ _ _) as [r | e] eqn:Ha.
  - cbn [mbind result_bind] in Hput |- *.
    destruct (py_get r "succeeded") as [v | e] eqn:Hv.
    + apply Retry_returns, Hput.
    + apply Retry_terminal; [exact Hput |].
      unfold py_get, py_get_default in Hv. destruct r; try discriminate Hv;
        injection Hv as <-; reflexivity.
  - cbn [mbind result_bind] in Hput |- *.
    apply Retry_terminal; [exact Hput | apply Hf].
Qed.

(** X24.  With a lease held, or for a permanent key, the acquisition is
    one request, the transaction that creates the leader key under that
    lease: unless the gateway answers with a retryable error or with
    LeaseNotFound, the call returns the `succeeded` entry of the answer or
    raises what the gateway raised, and the lease is kept. *)
Theorem attempt_with_lease (permanent : bool) (w : world) :
  let lease := if permanent then PNone else _lease w in
  truthy (_lease w) = true \/ permanent = true ->
  final (answer (election w lease) w) ->
  attempt_to_acquire_leader api_execute time_time retry_budget leader_path
                            permanent w
  = (r ← answer (election w lease) w; py_get r "succeeded",
     emit (election w lease) w).
Proof.
  intros lease Hheld Hf. subst lease.
  pose proof (cas_put_once w _ Hf) as Hput.
  assert (Hpre : negb (truthy (_lease w)) && negb permanent = false).
  { destruct Hheld as [-> | ->]; [reflexivity | apply andb_false_r]. }
  unfold attempt_to_acquire_leader, _do_attempt_to_acquire_leader,
         try_except, own_lease, log.
  unfold mbind, mret, M_bind, M_ret, get, modify.
  cbn -[put issubclass retry refresh_lease].
  rewrite Hpre.
  destruct permanent; cbn -[put issubclass retry refresh_lease];
    rewrite Hput; unfold final, answer, election in *;
    destruct (api_execute _ _ _) as [r | e]; cbn [mbind result_bind];
    try (destruct (py_get r "succeeded") as [v | e'] eqn:Hv;
         [destruct (truthy v); reflexivity |
          unfold py_get, py_get_default in Hv; destruct r; try discriminate Hv;
          injection Hv as <-; reflexivity]);
    destruct Hf as [_ Hf]; destruct e; try reflexivity;
    destruct (issubclass (err_class e) LeaseNotFound) eqn:Hs;
    try reflexivity;
    apply issubclass_LeaseNotFound in Hs; destruct (Hf e eq_refl Hs).
Qed.


(** The state after a lease [ID] was granted in state [w]: the request on
    the trace, the lease held, the clock read and recorded. *)
Let granted (w : world) (ID : pyval) : world :=
  let grant := EvRpc (version_prefix w ++ "/lease/grant")%string
                     (PDict [("TTL", PInt (_ttl w))]) in
  let w1 := set_lease ID (emit grant w) in
  set_last_lease_refresh (time_time (trace w1)) (emit EvTime w1).

(** X25.  Without a lease, a non-permanent acquisition first has a lease
    granted for the configured TTL and then makes the election request
    under the lease just granted. *)
Theorem attempt_without_lease (w : world) (g ID : pyval) :
  truthy (_lease w) = false ->
  api_execute (trace w) (version_prefix w ++ "/lease/grant")%string
              (PDict [("TTL", PInt (_ttl w))]) = Ok g ->
  py_getitem g "ID" = Ok ID ->
  final (answer (election (granted w ID) ID) (granted w ID)) ->
  attempt_to_acquire_leader api_execute time_time retry_budget leader_path
                            false w
  = (r ← answer (election (granted w ID) ID) (granted w ID);
     py_get r "succeeded",
     emit (election (granted w ID) ID) (granted w ID)).
Proof.
  intros Hl Hg HID Hf.
  pose proof (refresh_lease_returns api_execute time_time retry_budget w _ _
                (refresh_without_lease api_execute time_time w g ID Hl Hg HID))
    as Href.
  change (set_last_lease_refresh _ _) with (granted w ID) in Href.
  pose proof (cas_put_once (granted w ID) ID Hf) as Hput.
  change (_name (granted w ID)) with (_name w) in Hput.
  unfold attempt_to_acquire_leader, _do_attempt_to_acquire_leader,
         try_except, own_lease, log.
  unfold mbind, mret, M_bind, M_ret, get, modify.
  cbn -[put issubclass retry refresh_lease granted].
  rewrite Hl. cbn -[put issubclass retry refresh_lease granted].
  rewrite Href. cbn -[put issubclass retry refresh_lease granted].
  change (_name (granted w ID)) with (_name w).
  change (_lease (granted w ID)) with ID.
  rewrite Hput. clear Hput Href Hg. unfold final, answer, election in *.
  destruct (api_execute _ _ _) as [r | e]; cbn [mbind result_bind].
  - destruct (py_get r "succeeded") as [v | e'] eqn:Hv;
      [destruct (truthy v); reflexivity |].
    unfold py_get, py_get_default in Hv. destruct r; try discriminate Hv;
      injection Hv as <-; reflexivity.
  - destruct Hf as [_ Hf]. destruct e; try reflexivity.
    destruct (issubclass (err_class e) LeaseNotFound) eqn:Hs;
      [| reflexivity].
    apply issubclass_LeaseNotFound in Hs. destruct (Hf e eq_refl Hs).
Qed.

(** X26.  The heartbeat with a lease held returns true whatever the
    keepalive reports: a TTL makes it record the time; a lease reported
    gone is kept and the time is not recorded. *)
Theorem update_leader_with_lease (w : world) (r ttl : pyval) :
  let keepalive := EvRpc (version_prefix w ++ "/lease/keepalive")%string
                         (PDict [("ID", _lease w)]) in
  truthy (_lease w) = true ->
  answer keepalive w = Ok r ->
  (res ← py_get_default r "result" (PDict []); py_get res "TTL") = Ok ttl ->
  _update_leader api_execute time_time retry_budget leader_path w
  = (Ok true,
     if truthy ttl
     then set_last_lease_refresh (time_time (trace (emit keepalive w)))
                                 (emit EvTime (emit keepalive w))
     else emit keepalive w).
Proof.
  intros keepalive Hl Hr Httl. subst keepalive. unfold answer in Hr.
  assert (Hk : retry retry_budget (lease_keepalive api_execute (_lease w)) w
               = (Ok ttl, emit (EvRpc (version_prefix w ++ "/lease/keepalive")%string
                                      (PDict [("ID", _lease w)])) w)).
  { apply Retry_returns.
    unfold lease_keepalive, call_rpc, lift, mbind, M_bind in *.
    cbn -[py_get py_get_default result_bind]. rewrite Hr, Httl.
    reflexivity. }
  unfold _update_leader.
  unfold mbind, mret, M_bind, M_ret, get, modify, now.
  cbn -[retry lease_keepalive refresh_lease take_leader].
  rewrite Hl. cbn -[retry lease_keepalive refresh_lease take_leader].
  rewrite Hk. destruct (truthy ttl); cbn; rewrite Hl; reflexivity.
Qed.

End Acquisition.


(** ** The snapshot loader *)

Lemma dict_lookup_set_eq (d : list (string * pyval)) (k : string) (v : pyval) :
  dict_lookup (dict_set d k v) k = Some v.
Proof.
  induction d as [| [k' v'] d IH]; cbn [dict_set dict_lookup].
  - rewrite String.eqb_refl. reflexivity.
  - destruct (String.eqb k' k) eqn:E; cbn [dict_lookup]; rewrite E;
      [reflexivity | exact IH].
Qed.

Lemma dict_lookup_set_ne (d : list (string * pyval)) (k k' : string)
    (v : pyval) :
  k <> k' -> dict_lookup (dict_set d k v) k' = dict_lookup d k'.
Proof.
  intros Hne. induction d as [| [k0 v0] d IH]; cbn [dict_set dict_lookup].
  - apply String.eqb_neq in Hne. rewrite Hne. reflexivity.
  - destruct (String.eqb_spec k0 k) as [-> | Hk]; cbn [dict_lookup].
    + apply String.eqb_neq in Hne. rewrite Hne. reflexivity.
    + destruct (String.eqb k0 k'); [reflexivity | exact IH].
Qed.

Section Index.

Variable base64_decode : pyval -> result string.
Variable path : string.

(** A node of the index and the relative path it is filed under. *)
Let filed (k : string) (n : pyval) : Prop :=
  exists key value lease,
    indexed_node n key value lease /\
    k = lstrip_char "/" (drop_chars (String.length path) key).

Lemma decode_node_filed (node : pyval) (k : string) (n : pyval) :
  decode_node base64_decode path node = Ok (k, n) -> filed k n.
Proof.
  unfold decode_node. destruct node as [| | | | | d]; try discriminate.
  cbn [py_getitem py_get py_get_default].
  destruct (dict_lookup d "key") as [k0 |]; [| discriminate].
  cbn [mbind result_bind].
  destruct (base64_decode k0) as [key | e]; [| discriminate].
  cbn [mbind result_bind].
  destruct (base64_decode (default (PStr "") (dict_lookup d "value")))
    as [value | e]; [| discriminate].
  cbn [mbind result_bind].
  intros H. injection H as <- <-.
  exists key, value, (default PNone (dict_lookup d "lease")). split; [| reflexivity].
  eexists. split; [reflexivity |]. repeat split.
  - rewrite !dict_lookup_set_ne by discriminate. apply dict_lookup_set_eq.
  - rewrite dict_lookup_set_ne by discriminate. apply dict_lookup_set_eq.
  - apply dict_lookup_set_eq.
Qed.

Lemma index_nodes_keeps (kvs : list pyval) :
  forall nodes0 nodes,
    index_nodes base64_decode path kvs nodes0 = Ok nodes ->
    (forall k n, dict_lookup nodes0 k = Some n -> filed k n) ->
    forall k n, dict_lookup nodes k = Some n -> filed k n.
Proof.
  induction kvs as [| node kvs IH]; intros nodes0 nodes; cbn [index_nodes].
  - intros H. injection H as <-. tauto.
  - destruct (decode_node base64_decode path node) as [[k1 n1] | e] eqn:Hd;
      cbn [mbind result_bind fst snd]; [| discriminate].
    intros H H0. apply (IH _ _ H).
    intros k n. destruct (String.eqb_spec k1 k) as [<- | Hne].
    + rewrite dict_lookup_set_eq. intros E. injection E as <-.
      apply (decode_node_filed node), Hd.
    + rewrite dict_lookup_set_ne by exact Hne. apply H0.
Qed.

(** X28.  Every node of the index built from a scan is a dictionary with
    a text key, a text value and a lease entry, filed under its key with
    the path of the cluster dropped and leading slashes stripped. *)
Theorem index_nodes_indexed (kvs : list pyval) (nodes : list (string * pyval))
    (k : string) (n : pyval) :
  index_nodes base64_decode path kvs [] = Ok nodes ->
  dict_lookup nodes k = Some n ->
  exists key value lease,
    indexed_node n key value lease /\
    k = lstrip_char "/" (drop_chars (String.length path) key).
Proof.
  intros H Hk. apply (index_nodes_keeps kvs [] nodes H); [| exact Hk].
  intros k0 n0 E. discriminate E.
Qed.

End Index.

Lemma hd_filter_cases {A} (f : A -> bool) (d : A) (l : list A) :
  hd d (List.filter f l) = d \/
  In (hd d (List.filter f l)) l /\ f (hd d (List.filter f l)) = true.
Proof.
  induction l as [| x l IH]; [left; reflexivity |].
  cbn [List.filter]. destruct (f x) eqn:Hx.
  - right. cbn [hd]. split; [left; reflexivity | exact Hx].
  - destruct IH as [IH | [IH1 IH2]]; [left; exact IH |].
    right. split; [right; exact IH1 | exact IH2].
Qed.

(** X29.  Whenever the loader builds a leader record, the record holds
    the revision and the lease of the leader node, and its member bears
    the name the node holds as its value: it is a member of the list or
    the placeholder. *)
Theorem load_leader_named _LEADER (nodes : list (string * pyval))
    (members : list Member) (l : Leader) :
  load_leader _LEADER nodes members = Ok (Some l) ->
  exists node value,
    dict_lookup nodes _LEADER = Some node /\
    py_getitem node "value" = Ok (PStr value) /\
    member_name (leader_member l) = value /\
    py_getitem node "mod_revision" = Ok (leader_index l) /\
    py_getitem node "lease" = Ok (leader_session l) /\
    (In (leader_member l) members \/
     leader_member l = mkMember (PInt (-1)) value PNone (PDict [])).
Proof.
  unfold load_leader, node_text.
  destruct (dict_lookup nodes _LEADER) as [node |]; [| discriminate].
  destruct (truthy node); [| discriminate].
  destruct (py_getitem node "value") as [v |] eqn:Hv; [| discriminate].
  cbn [mbind result_bind]. destruct v; try discriminate.
  cbn [mbind result_bind].
  destruct (py_getitem node "mod_revision") as [index |] eqn:Hi;
    [| discriminate].
  cbn [mbind result_bind].
  destruct (py_getitem node "lease") as [lease |] eqn:Hl; [| discriminate].
  cbn [mbind result_bind].
  intros H. injection H as <-. exists node, s.
  cbn [leader_member leader_index leader_session].
  destruct (hd_filter_cases (fun m => String.eqb (member_name m) s)
              (mkMember (PInt (-1)) s PNone (PDict [])) members)
    as [E | [Hin Hname]].
  - rewrite E. repeat split; auto.
  - apply String.eqb_eq in Hname. repeat split; auto.
Qed.

(** X30.  A scan without nodes gives the empty snapshot: no initialize
    flag, configuration, history or failover, no leader, no members, a
    last leader operation of 0, and a sync state built from nothing. *)
Theorem build_cluster_empty
    (_INITIALIZE _CONFIG _HISTORY _LEADER_OPTIME _MEMBERS _LEADER _FAILOVER
     _SYNC : string)
    (Member_from_node : pyval -> string -> pyval -> string -> Member)
    (ClusterConfig_from_node TimelineHistory_from_node Failover_from_node
     SyncState_from_node : pyval -> pyval -> pyval)
    (base64_decode : pyval -> result string)
    (path : string) (d : list (string * pyval)) :
  dict_lookup d "kvs" = None \/ dict_lookup d "kvs" = Some (PList []) ->
  build_cluster _INITIALIZE _CONFIG _HISTORY _LEADER_OPTIME _MEMBERS _LEADER
                _FAILOVER _SYNC Member_from_node ClusterConfig_from_node
                TimelineHistory_from_node Failover_from_node
                SyncState_from_node base64_decode path (PDict d)
  = Ok (mkCluster PNone PNone None 0 [] PNone
                  (SyncState_from_node PNone PNone) PNone).
Proof.
  intros H. unfold build_cluster.
  assert (E : default (PList []) (dict_lookup d "kvs") = PList [])
    by (destruct H as [-> | ->]; reflexivity).
  rewrite E. reflexivity.
Qed.

(** ** The further properties on the scenarios *)

Lemma prefix_refuses_key_witness :
  deleteprefix (Scenario.scripted []) (Bytes []) Scenario.node1
  = (Raise IndexError, Scenario.node1).
Proof.
  exact (proj2 (proj1 (prefix_refuses_key (Scenario.scripted []) (Bytes [])
                         Scenario.node1)
                      eq_refl)).
Defined.

Lemma prefix_range_witness :
  prefix (Scenario.scripted [Ok (PDict [])]) (Str "/service/batman/")
         Scenario.node1
  = (Ok (PDict []),
     emit (EvRpc "/v3/kv/range"
             (PDict [("key", PStr (base64_encode (Str "/service/batman/")));
                     ("range_end",
                      PStr (base64_encode (Str "/service/batman0")))]))
          Scenario.node1).
Proof.
  exact (proj1 (prefix_range (Scenario.scripted [Ok (PDict [])])
                  (Str "/service/batman/") Scenario.node1
                  (list_byte_of_string "/service/batman") "/"%byte "0"%byte
                  eq_refl eq_refl)).
Defined.

Lemma empty_range_end_dropped_witness :
  deleterange (Scenario.scripted []) (Str "/service/batman/sync")
              (Some (Bytes [])) PNone Scenario.node1
  = deleterange (Scenario.scripted []) (Str "/service/batman/sync") None
                PNone Scenario.node1.
Proof.
  exact (proj2 (empty_range_end_dropped (Scenario.scripted [])
                  (Str "/service/batman/sync") Scenario.node1
                  (Some (Bytes [])) PNone eq_refl)).
Defined.

Lemma put_guarded_by_mod_revision_witness :
  (put (Scenario.scripted [Ok (PDict [("succeeded", PBool true)])])
       (Str "/service/batman/config") (Str "ttl") PNone PNone (PStr "7")
       Scenario.node1).1
  = Ok (PBool true).
Proof.
  exact (f_equal fst
           (put_guarded_by_mod_revision
              (Scenario.scripted [Ok (PDict [("succeeded", PBool true)])])
              (Str "/service/batman/config") Scenario.node1 (Str "ttl")
              PNone (PStr "7") eq_refl)).
Defined.

Lemma deleterange_plain_or_guarded_witness :
  (deleterange (Scenario.scripted [Ok (PDict [])])
               (Str "/service/batman/sync") None (PStr "9")
               Scenario.node1).1
  = Ok PNone.
Proof.
  exact (f_equal fst
           (proj2 (deleterange_plain_or_guarded
                     (Scenario.scripted [Ok (PDict [])])
                     (Str "/service/batman/sync") Scenario.node1 None
                     (PStr "9"))
                  eq_refl)).
Defined.

Lemma lease_keepalive_results_witness :
  lease_keepalive (Scenario.scripted [Ok (PDict [])]) (PStr "1001")
                  Scenario.node1
  = (Ok PNone,
     emit (EvRpc "/v3/lease/keepalive" (PDict [("ID", PStr "1001")]))
          Scenario.node1).
Proof.
  exact (proj1 (lease_keepalive_results (Scenario.scripted [Ok (PDict [])])
                  Scenario.node1 (PStr "1001") [] eq_refl)
               eq_refl).
Defined.

Lemma refresh_lease_raises_own_failure_witness :
  EtcdError "Failed ro keepalive/grant lease" <> RetryFailedError.
Proof.
  exact (proj2 (refresh_lease_raises_own_failure
                  Scenario.leaderless_gateway Scenario.clock 1
                  Scenario.fresh_client
                  (emit (EvRpc "/v2/lease/grant" (PDict [("TTL", PInt 30)]))
                     (emit (EvRpc "/v2/lease/grant" (PDict [("TTL", PInt 30)]))
                        Scenario.fresh_client))
                  (EtcdError "Failed ro keepalive/grant lease") eq_refl)).
Defined.

Lemma create_lease_spec_witness :
  truthy (_lease (mkWorld "/v2" (PStr "2002") 101 10 30 "node1" None
                    [EvRpc "/v2/lease/grant" (PDict [("TTL", PInt 30)]);
                     EvTime]))
  = true.
Proof.
  exact (proj1 (create_lease_spec
                  (Scenario.scripted [Ok (PDict [("ID", PStr "2002")])])
                  Scenario.clock 1 1 Scenario.fresh_client)
               _ eq_refl).
Defined.

Lemma attempt_with_lease_witness :
  (attempt_to_acquire_leader
     (Scenario.scripted [Ok (PDict [])]) Scenario.clock 2
     "/service/batman/leader" false Scenario.node1).1
  = Ok PNone.
Proof.
  exact (f_equal fst
           (attempt_with_lease (Scenario.scripted [Ok (PDict [])])
              Scenario.clock 2 "/service/batman/leader" false Scenario.node1
              (or_introl eq_refl) I)).
Defined.

Lemma attempt_without_lease_witness :
  (attempt_to_acquire_leader
     (Scenario.scripted [Ok (PDict [("ID", PStr "2002")]);
                         Ok (PDict [("succeeded", PBool true)])])
     Scenario.clock 2 "/service/batman/leader" false Scenario.fresh_client).1
  = Ok (PBool true).
Proof.
  exact (f_equal fst
           (attempt_without_lease
              (Scenario.scripted [Ok (PDict [("ID", PStr "2002")]);
                                  Ok (PDict [("succeeded", PBool true)])])
              Scenario.clock 2 "/service/batman/leader" Scenario.fresh_client
              (PDict [("ID", PStr "2002")]) (PStr "2002")
              eq_refl eq_refl eq_refl I)).
Defined.

Lemma update_leader_with_lease_witness :
  _update_leader (Scenario.scripted [Ok (PDict [])]) Scenario.clock 2
                 "/service/batman/leader" Scenario.node1
  = (Ok true,
     emit (EvRpc "/v3/lease/keepalive" (PDict [("ID", PStr "1001")]))
          Scenario.node1).
Proof.
  exact (update_leader_with_lease (Scenario.scripted [Ok (PDict [])])
           Scenario.clock 2 "/service/batman/leader" Scenario.node1
           (PDict []) PNone eq_refl eq_refl eq_refl).
Defined.


Lemma index_nodes_indexed_witness :
  exists key value lease,
    indexed_node Scenario.indexed_leader key value lease /\
    "leader" = lstrip_char "/" (drop_chars 16 key).
Proof.
  exact (index_nodes_indexed Scenario.decode "/service/batman/"
           [Scenario.kv "/service/batman/leader" "nodeA" "42"]
           [("leader", Scenario.indexed_leader)] "leader"
           Scenario.indexed_leader eq_refl eq_refl).
Defined.

Lemma load_leader_named_witness :
  exists node value,
    dict_lookup [("leader", Scenario.leader_node "nodeZ")] "leader"
      = Some node /\
    py_getitem node "value" = Ok (PStr value) /\
    "nodeZ" = value /\
    py_getitem node "mod_revision" = Ok (PStr "42") /\
    py_getitem node "lease" = Ok (PStr "1001") /\
    (False \/
     mkMember (PInt (-1)) "nodeZ" PNone (PDict [])
     = mkMember (PInt (-1)) value PNone (PDict [])).
Proof.
  exact (load_leader_named "leader" [("leader", Scenario.leader_node "nodeZ")]
           []
           (mkLeader (PStr "42") (PStr "1001")
                     (mkMember (PInt (-1)) "nodeZ" PNone (PDict [])))
           eq_refl).
Defined.

Lemma build_cluster_empty_witness :
  build_cluster "initialize" "config" "history" "optime/leader" "members/"
                "leader" "failover" "sync"
                Scenario.member_of (fun _ v => v) (fun _ v => v)
                (fun _ v => v) (fun _ v => v) Scenario.decode
                "/service/batman/" (PDict [("count", PStr "0")])
  = Ok (mkCluster PNone PNone None 0 [] PNone PNone PNone).
Proof.
  exact (build_cluster_empty "initialize" "config" "history" "optime/leader"
           "members/" "leader" "failover" "sync"
           Scenario.member_of (fun _ v => v) (fun _ v => v)
           (fun _ v => v) (fun _ v => v) Scenario.decode
           "/service/batman/" [("count", PStr "0")] (or_introl eq_refl)).
Defined.
